(** * zwila-azure-storage: expiring shared folders on a blob container

    A shallow embedding of [src/zwila.js] (the TOML-frontmatter generation of
    the package), of its JSON predecessor [src/zwila.mjs] and of
    [src/util.js], followed by the properties of the folder lifecycle, the
    listing algorithm, the metadata text format and the SAS url issuance.

    Conventions.
    - JavaScript strings are embedded as [string]; [null]/[undefined] arguments
      as [None]; the truthiness tests of the source ([!slug], [if (message)])
      are written out with [truthy].
    - A [Date] is its time value: [Some t] (milliseconds since the epoch) or
      [None] for an Invalid Date.
    - A rejected promise / thrown exception is [Throw e]; functions that write
      to the container thread the container through a state-and-error monad.
    - The store keeps a blob under the requested name with every backslash
      turned into a slash; reads and writes go through that name, listings
      report it.
    - The clock ([new Date()]), the entropy behind [nanoid], the engine's date
      parser, the local file with what the sniffers say of it, and the SAS
      signer are inputs of the model. *)

From Stdlib Require Import ZArith List String Ascii Bool Lia.
Import ListNotations.

Local Open Scope string_scope.
Local Open Scope list_scope.

(* ================================================================== *)
(** ** Results of calls that may throw *)

Inductive JsError : Type :=
| RangeError (msg : string)          (* Date.prototype.toISOString on an Invalid Date *)
| RestError (code : string)         (* the storage service refused the request *)
| SyntaxError (text : string)       (* JSON.parse: the text it rejected *)
| SigningError (msg : string)       (* generateBlobSASQueryParameters *)
| DecodeError (field : string)      (* the metadata codec of the spec *)
| SerializerError (parameter : string). (* the storage client refused an
                                           option before sending anything *)

Inductive result (A : Type) : Type :=
| Ok (a : A)
| Throw (e : JsError).
Arguments Ok {A} a.
Arguments Throw {A} e.

Definition rbind {A B} (r : result A) (k : A -> result B) : result B :=
  match r with
  | Ok a => k a
  | Throw e => Throw e
  end.

Definition of_option {A} (o : option A) (e : JsError) : result A :=
  match o with
  | Some a => Ok a
  | None => Throw e
  end.

Declare Scope result_scope.
Delimit Scope result_scope with result.
Notation "'let?' x ':=' r 'in' k" := (rbind r (fun x => k))
  (at level 10, x pattern, r at level 100, k at level 200) : result_scope.

(** JavaScript values that [getContentTypeFromFile] can return: a string,
    [undefined], or a member inherited from [Object.prototype]. *)
Inductive JsVal : Type :=
| JString (s : string)
| JUndefined
| JInherited (key : string).

(** [!x] for an optional string argument: [null], [undefined] and [''] are
    falsy. *)
Definition truthy (x : option string) : bool :=
  match x with
  | Some s => negb (s =? "")
  | None => false
  end.

(* ================================================================== *)
(** ** String primitives used by the sources *)

Module JsString.

(** [s.includes(sub)] *)
Fixpoint includes (s sub : string) : bool :=
  String.prefix sub s ||
  match s with
  | EmptyString => false
  | String _ s' => includes s' sub
  end.

(** Does the character [c] occur in [s]? *)
Fixpoint contains_char (c : ascii) (s : string) : bool :=
  match s with
  | EmptyString => false
  | String a s' => Ascii.eqb a c || contains_char c s'
  end.

(** [s.slice(0, -1)]: all but the last character. *)
Fixpoint slice_0_m1 (s : string) : string :=
  match s with
  | EmptyString => EmptyString
  | String _ EmptyString => EmptyString
  | String a s' => String a (slice_0_m1 s')
  end.

(** [s.split(sep)] for a one-character separator. *)
Fixpoint split (sep : ascii) (s : string) : list string :=
  match s with
  | EmptyString => [EmptyString]
  | String a s' =>
      if Ascii.eqb a sep then EmptyString :: split sep s'
      else match split sep s' with
           | h :: t => String a h :: t
           | [] => [String a EmptyString]
           end
  end.

(** [s] without its prefix [p], when it starts with [p]. *)
Fixpoint strip_prefix (p s : string) : option string :=
  match p, s with
  | EmptyString, _ => Some s
  | String a p', String b s' =>
      if Ascii.eqb a b then strip_prefix p' s' else None
  | String _ _, EmptyString => None
  end.

(** Cut [s] at the first [c]: the text before it and the text after it. *)
Fixpoint take_until (c : ascii) (s : string) : option (string * string) :=
  match s with
  | EmptyString => None
  | String a s' =>
      if Ascii.eqb a c then Some (EmptyString, s')
      else match take_until c s' with
           | Some (before, rest) => Some (String a before, rest)
           | None => None
           end
  end.

(** [s] without its last character, when that character is [c]. *)
Fixpoint strip_last (c : ascii) (s : string) : option string :=
  match s with
  | EmptyString => None
  | String a EmptyString => if Ascii.eqb a c then Some EmptyString else None
  | String a s' =>
      match strip_last c s' with
      | Some r => Some (String a r)
      | None => None
      end
  end.

Definition isDigit (c : ascii) : bool :=
  let n := nat_of_ascii c in (48 <=? n)%nat && (n <=? 57)%nat.

Definition nl : ascii := ascii_of_nat 10.
Definition NL : string := String nl EmptyString.

End JsString.

(* ================================================================== *)
(** ** Dates: time values and [toISOString] *)

Module JsDate.
Local Open Scope Z_scope.

Definition msPerDay : Z := 86400000.
Definition maxTime : Z := 8640000000000000.

(** ECMAScript TimeClip: what [new Date(value)] keeps of a number. *)
Definition TimeClip (t : Z) : option Z :=
  if Z.abs t <=? maxTime then Some t else None.

Definition Day (t : Z) : Z := t / msPerDay.
Definition TimeWithinDay (t : Z) : Z := t mod msPerDay.

(** Proleptic Gregorian date of a day number (days since 1970-01-01). *)
Definition civil_from_days (days : Z) : Z * Z * Z :=
  let z := days + 719468 in
  let era := z / 146097 in
  let doe := z - era * 146097 in
  let yoe := (doe - doe / 1460 + doe / 36524 - doe / 146096) / 365 in
  let y := yoe + era * 400 in
  let doy := doe - (365 * yoe + yoe / 4 - yoe / 100) in
  let mp := (5 * doy + 2) / 153 in
  let d := doy - (153 * mp + 2) / 5 + 1 in
  let m := if mp <? 10 then mp + 3 else mp - 9 in
  (if m <=? 2 then y + 1 else y, m, d).

Definition YearFromDay (days : Z) : Z := fst (fst (civil_from_days days)).

Definition digitChar (d : Z) : ascii := ascii_of_nat (Z.to_nat (48 + d)).

(** [n] in decimal, exactly [w] digits (the low ones), zero padded. *)
Fixpoint padZ (w : nat) (n : Z) : string :=
  match w with
  | O => EmptyString
  | S w' => padZ w' (n / 10) ++ String (digitChar (n mod 10)) EmptyString
  end.

(** The year as [toISOString] prints it: four digits, or a sign and six
    digits outside 0..9999. *)
Definition isoYear (y : Z) : string :=
  if (0 <=? y) && (y <=? 9999) then padZ 4 y
  else if y <? 0 then "-" ++ padZ 6 (- y)
  else "+" ++ padZ 6 y.

(** The date component [YYYY-MM-DD] of a day number. *)
Definition isoDate (days : Z) : string :=
  let '(y, m, d) := civil_from_days days in
  isoYear y ++ "-" ++ padZ 2 m ++ "-" ++ padZ 2 d.

(** The time component [HH:mm:ss.sss] of the milliseconds within a day. *)
Definition isoTime (ms : Z) : string :=
  padZ 2 (ms / 3600000) ++ ":" ++ padZ 2 ((ms / 60000) mod 60) ++ ":" ++
  padZ 2 ((ms / 1000) mod 60) ++ "." ++ padZ 3 (ms mod 1000).

Definition isoOfTime (t : Z) : string :=
  isoDate (Day t) ++ "T" ++ isoTime (TimeWithinDay t) ++ "Z".

(** [date.toISOString()]: throws a RangeError on an Invalid Date. *)
Definition toISOString (tv : option Z) : result string :=
  match tv with
  | Some t => Ok (isoOfTime t)
  | None => Throw (RangeError "Invalid time value")
  end.

(** A pattern over characters: [d] stands for one decimal digit, any
    other character for itself. *)
Fixpoint matches (pat s : string) : bool :=
  match pat, s with
  | EmptyString, EmptyString => true
  | String p pat', String c s' =>
      (if Ascii.eqb p "d" then JsString.isDigit c else Ascii.eqb p c)
      && matches pat' s'
  | _, _ => false
  end.

(** The shapes [toISOString] prints. *)
Definition isTimestamp (s : string) : bool :=
  matches "dddd-dd-ddTdd:dd:dd.dddZ" s ||
  matches "+dddddd-dd-ddTdd:dd:dd.dddZ" s ||
  matches "-dddddd-dd-ddTdd:dd:dd.dddZ" s.

(** [iso.slice(0, 10)], the date component the tests compare. *)
Definition dateComponent (iso : string) : string := substring 0 10 iso.

End JsDate.

(* ================================================================== *)
(** ** src/util.js: content type of a local file *)

Module Util.

(** A plain object literal used as a table: its own properties, in
    source order. *)
Definition JsObject := list (string * string).

(** [textMimeTypes] of util.js as first published (txt, xml, csv). *)
Definition textMimeTypes_v1 : JsObject :=
  [ ("txt", "text/plain"); ("xml", "text/xml"); ("csv", "text/csv") ].

(** [textMimeTypes] of the current util.js (20210705: markdown added). *)
Definition textMimeTypes : JsObject :=
  [ ("txt", "text/plain"); ("xml", "text/xml"); ("csv", "text/csv");
    ("md", "text/markdown; charset=UTF-8") ].

(** Names every object literal inherits from [Object.prototype]. *)
Definition objectPrototypeKeys : list string :=
  [ "constructor"; "__defineGetter__"; "__defineSetter__"; "hasOwnProperty";
    "__lookupGetter__"; "__lookupSetter__"; "isPrototypeOf";
    "propertyIsEnumerable"; "toString"; "valueOf"; "__proto__";
    "toLocaleString" ].

Fixpoint ownProperty (o : JsObject) (key : string) : option string :=
  match o with
  | [] => None
  | (k, v) :: o' => if k =? key then Some v else ownProperty o' key
  end.

(** [o[key]]: an own property, else an inherited member, else
    [undefined]. *)
Definition getProperty (o : JsObject) (key : string) : JsVal :=
  match ownProperty o key with
  | Some v => JString v
  | None =>
      if existsb (String.eqb key) objectPrototypeKeys then JInherited key
      else JUndefined
  end.

(** [_getFilename]: [parts[parts.length - 1]] of [filepath.split('/')]. *)
Definition _getFilename (filepath : string) : string :=
  last (JsString.split "/" filepath) EmptyString.

(** [_getFileExtension]: [parts[parts.length - 1]] of
    [filename.split('.')]. *)
Definition _getFileExtension (filename : string) : string :=
  last (JsString.split "." filename) EmptyString.

Section ContentType.
(** The table in scope; the two versions of util.js differ only in it. *)
Variable table : JsObject.

(** [_getContentTypeFromFile].  [filetype] is the result of
    [FileType.fromFile(filepath)] (the sniffed mime type, or
    [undefined]); [isBinary] that of [isBinaryPath(filepath)]. *)
Definition _getContentTypeFromFile
    (filetype : option string) (isBinary : bool) (filepath : string)
  : JsVal :=
  match filetype, isBinary with
  | Some mime, true => JString mime
  | None, false => getProperty table (_getFileExtension filepath)
  | _, _ => JString EmptyString
  end.
End ContentType.

End Util.

(* ================================================================== *)
(** ** The blob container behind [containerClient] *)

Module Store.

Record Blob : Type := mkBlob {
  blobName : string;          (* full path within the container *)
  blobBody : string;
  blobContentType : JsVal     (* blobHTTPHeaders.blobContentType *)
}.

(** A container: its blobs, at most one per name ([upload] overwrites). *)
Definition Container := list Blob.

(** [item.kind] of a hierarchical listing: ['prefix'] or ['blob']. *)
Inductive Kind : Type := Kprefix | Kblob.

Record Item : Type := mkItem { kind : Kind; name : string }.

Definition Kind_eqb (a b : Kind) : bool :=
  match a, b with
  | Kprefix, Kprefix | Kblob, Kblob => true
  | _, _ => false
  end.

(** The name under which the store keeps a blob that a client addresses
    as [n]: every backslash of the requested name is a slash in the stored
    one.  A write and a later read through the same requested name reach
    the same blob; a listing reports the stored names. *)
Fixpoint canon (n : string) : string :=
  match n with
  | EmptyString => EmptyString
  | String a n' =>
      String (if Ascii.eqb a "\"%char then "/"%char else a) (canon n')
  end.

(** The body of the blob stored as [k]. *)
Fixpoint find (c : Container) (k : string) : option string :=
  match c with
  | [] => None
  | b :: c' => if blobName b =? k then Some (blobBody b) else find c' k
  end.

(** Creates the blob stored as [k] or overwrites it. *)
Fixpoint put (c : Container) (k body : string) (ctype : JsVal)
  : Container :=
  match c with
  | [] => [mkBlob k body ctype]
  | b :: c' =>
      if blobName b =? k then mkBlob k body ctype :: c'
      else b :: put c' k body ctype
  end.

(** [getBlockBlobClient(n).download()]: the body of the blob addressed
    as [n]. *)
Definition download (c : Container) (n : string) : option string :=
  find c (canon n).

(** [getBlockBlobClient(n).upload(...)]: creates the blob addressed as
    [n] or overwrites it. *)
Definition upload (c : Container) (n body : string) (ctype : JsVal)
  : Container :=
  put c (canon n) body ctype.

(** What one blob contributes to the listing under [pre] with delimiter
    ["/"]: nothing when its name does not start with [pre]; the virtual
    directory up to the next ["/"] when there is one; else the blob. *)
Definition entry (pre : string) (b : Blob) : option Item :=
  match JsString.strip_prefix pre (blobName b) with
  | None => None
  | Some rest =>
      match JsString.take_until "/" rest with
      | Some (dir, _) => Some (mkItem Kprefix (pre ++ dir ++ "/"))
      | None => Some (mkItem Kblob (blobName b))
      end
  end.

Fixpoint entries (pre : string) (c : Container) : list Item :=
  match c with
  | [] => []
  | b :: c' =>
      match entry pre b with
      | Some it => it :: entries pre c'
      | None => entries pre c'
      end
  end.

Definition namesOf (k : Kind) (l : list Item) : list string :=
  map name (filter (fun it => Kind_eqb (kind it) k) l).

(** [containerClient.listBlobsByHierarchy('/', { prefix: pre })], drained:
    the service reports each virtual directory once, and the client yields
    a page's prefixes before its blobs. *)
Definition listBlobsByHierarchy (c : Container) (pre : string)
  : list Item :=
  let es := entries pre c in
  map (mkItem Kprefix) (nodup string_dec (namesOf Kprefix es)) ++
  map (mkItem Kblob) (namesOf Kblob es).

(** Calls that may write to the container and may throw: the container is
    threaded through, and a throw leaves it as it was at that point. *)
Definition M (A : Type) : Type := Container -> Container * result A.

Definition ret {A} (a : A) : M A := fun c => (c, Ok a).

Definition bind {A B} (m : M A) (k : A -> M B) : M B :=
  fun c =>
    match m c with
    | (c', Ok a) => k a c'
    | (c', Throw e) => (c', Throw e)
    end.

Definition lift {A} (r : result A) : M A := fun c => (c, r).

Definition uploadM (n body : string) (ctype : JsVal) : M unit :=
  fun c => (upload c n body ctype, Ok tt).

End Store.

(* ================================================================== *)
(** ** nanoid *)

Module Nanoid.
Local Open Scope Z_scope.

(** Modelled from the spec: [nanoid] is the npm dependency required at the
    top of zwila.js; its code is not among the sources.  The spec gives the
    default slug as "a 21-character cryptographically-random identifier
    drawn from a URL-safe alphabet" (the docstring of [createFolder]:
    "nanoid() of len 21").  The model is the package's published routine:
    one character of its 64-character alphabet per random byte, selected by
    the low six bits.  [rnd i] is the i-th random byte. *)
Definition urlAlphabet : string :=
  "useandom-26T198340PX75pxJACKVERYMINDBUSHWOLF_GQZbfghjklqvwyzrict".

Definition charAt (s : string) (i : Z) : ascii :=
  match String.get (Z.to_nat i) s with
  | Some c => c
  | None => zero
  end.

Fixpoint nanoid_loop (rnd : nat -> Z) (size : nat) : string :=
  match size with
  | O => EmptyString
  | S n => String (charAt urlAlphabet (Z.land (rnd n) 63)) (nanoid_loop rnd n)
  end.

Definition nanoid (rnd : nat -> Z) : string := nanoid_loop rnd 21.

(** ASCII letters, digits, underscore and hyphen. *)
Definition urlSafe (c : ascii) : bool :=
  let n := nat_of_ascii c in
  ((65 <=? n) && (n <=? 90) || (97 <=? n) && (n <=? 122) ||
   (48 <=? n) && (n <=? 57) || (n =? 95) || (n =? 45))%nat.

Fixpoint all_chars (p : ascii -> bool) (s : string) : bool :=
  match s with
  | EmptyString => true
  | String c s' => p c && all_chars p s'
  end.

End Nanoid.

(* ================================================================== *)
(** ** src/zwila.js *)

Module Zwila.
Import Store.
Local Open Scope Z_scope.

(** [this.metafilename] *)
Definition metafilename : string := "_zwila.md".

(** [expiry] as a caller may pass it: a [Date] (its time value) or a
    string. *)
Inductive ExpiryArg : Type :=
| ExpiryDate (tv : option Z)
| ExpiryString (s : string).

(** [!expiry] is false: a Date object is always truthy, a string when it
    is not empty. *)
Definition expiry_given (e : option ExpiryArg) : bool :=
  match e with
  | None => false
  | Some (ExpiryDate _) => true
  | Some (ExpiryString s) => negb (s =? "")%string
  end.

(** [x] when truthy, else [d]: [if (!x) x = d]. *)
Definition orDefault (x : option string) (d : string) : string :=
  match x with
  | Some s => if (s =? "")%string then d else s
  | None => d
  end.

(** The template literal of [createFolder] (lines 53-60): TOML
    frontmatter, then the message when there is one. *)
Definition metaText (slug description expiry : string)
    (message : option string) : string :=
  ("+++" ++ JsString.NL ++
   "slug = '" ++ slug ++ "'" ++ JsString.NL ++
   "description = '" ++ description ++ "'" ++ JsString.NL ++
   "expiry = " ++ expiry ++ JsString.NL ++
   "downloads = 0" ++ JsString.NL ++
   "+++" ++ JsString.NL ++
   match message with
   | Some m => if (m =? "")%string then EmptyString
               else JsString.NL ++ m ++ JsString.NL
   | None => EmptyString
   end)%string.

(** What the signer is asked for ([BlobSASSignatureValues]). *)
Record BlobSASSignatureValues : Type := mkSAS {
  containerName : string;
  blobName : string;
  startsOn : option Z;
  expiresOn : option Z;
  permissions : string            (* BlobSASPermissions.parse('r') *)
}.

Record CreateFolderResult : Type := mkCreated {
  meta : string;
  url : string
}.

Record Folder : Type := mkFolder {
  folder_meta : string;           (* { meta: ..., *)
  folder_blobs : list Item        (*   blobs: [...] } *)
}.

(** The local file handed to [uploadFile]: one that cannot be read
    ([FileType.fromFile] rejects with [e]), or its content together with
    the mime type the sniffer reports for it ([None]: [undefined]). *)
Inductive LocalFile : Type :=
| Unreadable (e : JsError)
| Readable (body : string) (filetype : option string).

Section Client.
(** [options.account], [options.container]. *)
Variables account container : string.
(** The engine's [Date.parse] on strings ([None]: NaN). *)
Variable Date_parse : string -> option Z.
(** [generateBlobSASQueryParameters(values, credential).toString()] for
    the client's credential; it throws when it cannot sign. *)
Variable generateBlobSASQueryParameters :
  BlobSASSignatureValues -> result string.

(** [decodeURIComponent(blockBlobClient.url)]: the client escapes the
    blob path it appends to the container url and the source undoes
    that, which leaves the plain address. *)
Definition blobUrl (blobname : string) : string :=
  ("https://" ++ account ++ ".blob.core.windows.net/" ++ container ++
   "/" ++ blobname)%string.

(** [new Date(expiry)] *)
Definition newDate (e : ExpiryArg) : option Z :=
  match e with
  | ExpiryDate (Some t) => JsDate.TimeClip t
  | ExpiryDate None => None
  | ExpiryString s =>
      match Date_parse s with
      | Some t => JsDate.TimeClip t
      | None => None
      end
  end.

(** Lines 48-52: the expiry text that goes into the frontmatter. *)
Definition normalizeExpiry (now : Z) (expiry : option ExpiryArg)
  : result string :=
  let dflt :=
    JsDate.toISOString (JsDate.TimeClip (now + 31 * 24 * 60 * 60 * 1000))
  in
  match expiry with
  | Some e =>
      if expiry_given expiry then JsDate.toISOString (newDate e)
      else dflt
  | None => dflt
  end.

(** [createFolder(slug, description, expiry, message)].  [now] is the
    reading of the clock, [rnd] the entropy [nanoid] draws from. *)
Definition createFolder (now : Z) (rnd : nat -> Z)
    (slug description : option string) (expiry : option ExpiryArg)
    (message : option string) : M CreateFolderResult :=
  let slug := orDefault slug (Nanoid.nanoid rnd) in
  let description := orDefault description EmptyString in
  bind (lift (normalizeExpiry now expiry)) (fun expiry =>
    let md := metaText slug description expiry message in
    bind (uploadM (slug ++ "/" ++ metafilename) md
            (JString "text/markdown; charset=UTF-8")) (fun _ =>
      ret (mkCreated md (blobUrl (slug ++ "/" ++ metafilename))))).

(** [uploadFile(sourcepath, slug, filename)].  [file] is the local file
    at [sourcepath] as the call finds it, [isBinary] what [isBinaryPath]
    says of the path.  The sniffer runs first (line 83) and rejects when
    it cannot read the file; the client then refuses a
    [blobContentType] that is no string and no [undefined] before it
    sends anything (line 90).  In both cases the call rejects and the
    container is as it was. *)
Definition uploadFile (file : LocalFile) (isBinary : bool)
    (sourcepath slug filename : string) : M string :=
  match file with
  | Unreadable e => lift (Throw e)
  | Readable body filetype =>
      match Util._getContentTypeFromFile Util.textMimeTypes filetype
              isBinary sourcepath with
      | JInherited _ =>
          lift (Throw (SerializerError "blobHTTPHeaders.blobContentType"))
      | ctype =>
          bind (uploadM (slug ++ "/" ++ filename) body ctype) (fun _ =>
            ret (blobUrl (slug ++ "/" ++ filename)))
      end
  end.

(** [getFolderMeta(slug)]: the text of the metadata blob, as stored. *)
Definition getFolderMeta (c : Container) (slug : string)
  : result string :=
  of_option (download c (slug ++ "/" ++ metafilename))
            (RestError "BlobNotFound").

(** [listFolderBlobs(slug)] *)
Definition listFolderBlobs (c : Container) (slug : string) : list Item :=
  filter
    (fun item =>
       Kind_eqb (kind item) Kblob &&
       negb (JsString.includes (name item) metafilename))
    (listBlobsByHierarchy c (slug ++ "/")).

(** [slug && (f !== slug)] *)
Definition otherFolder (slug : option string) (f : string) : bool :=
  match slug with
  | Some s => negb (s =? "")%string && negb (f =? s)%string
  | None => false
  end.

(** The body of the [for await] loop of [listFolders], over the items
    still to come; [folders] is the array built so far. *)
Fixpoint listFolders_loop (c : Container) (slug : option string)
    (items : list Item) (folders : list Folder)
  : result (list Folder) :=
  match items with
  | [] => Ok folders
  | item :: rest =>
      match kind item with
      | Kprefix =>
          let f := JsString.slice_0_m1 (name item) in
          if otherFolder slug f then listFolders_loop c slug rest folders
          else
            (let? meta := getFolderMeta c f in
             let blobs := listFolderBlobs c f in
             listFolders_loop c slug rest
               (folders ++ [mkFolder meta blobs]))%result
      | Kblob => listFolders_loop c slug rest folders
      end
  end.

(** [listFolders(slug = null)].  The function has one parameter: a
    second argument, as in [listFolders(slug, true)], is not read. *)
Definition listFolders (c : Container) (slug : option string)
  : result (list Folder) :=
  listFolders_loop c slug (listBlobsByHierarchy c EmptyString) [].

(** The values handed to the signer by [getSASUrl]; [now1] and [now2]
    are the two readings of the clock, in source order. *)
Definition sasValues (now1 now2 : Z) (slug filename : string)
    (minutes : option Z) : BlobSASSignatureValues :=
  let minutes := match minutes with Some m => m | None => 60 end in
  mkSAS container
        (slug ++ "/" ++ filename)%string
        (JsDate.TimeClip (now1 - 10 * 60 * 1000))
        (JsDate.TimeClip (now2 + minutes * 60 * 1000))
        "r".

(** [getSASUrl(slug, filename, minutes = 60)] *)
Definition getSASUrl (now1 now2 : Z) (slug filename : string)
    (minutes : option Z) : result string :=
  let blobname := (slug ++ "/" ++ filename)%string in
  (let? sastoken :=
     generateBlobSASQueryParameters
       (sasValues now1 now2 slug filename minutes) in
   Ok (blobUrl blobname ++ "?" ++ sastoken)%string)%result.

End Client.

End Zwila.

(* ================================================================== *)
(** ** src/zwila.mjs: the JSON generation of the listing *)

Module Legacy.
Import Store.

Definition metafilename : string := "foldermeta.json".

Section Client.
(** The values [JSON.parse] produces, and [JSON.parse] itself ([None]:
    it throws a SyntaxError). *)
Variable J : Type.
Variable JSON_parse : string -> option J.

Record Folder : Type := mkFolder {
  foldermeta : J;
  folderblobs : list Item
}.

(** [getFolderMeta(foldername)]: download, then [JSON.parse]. *)
Definition getFolderMeta (c : Container) (foldername : string)
  : result J :=
  (let? json := of_option (download c (foldername ++ "/" ++ metafilename))
                          (RestError "BlobNotFound") in
   of_option (JSON_parse json) (SyntaxError json))%result.

Definition listFolderBlobs (c : Container) (foldername : string)
  : list Item :=
  filter
    (fun item =>
       Kind_eqb (kind item) Kblob &&
       negb (JsString.includes (name item) metafilename))
    (listBlobsByHierarchy c (foldername ++ "/")).

Fixpoint listFolders_loop (c : Container) (foldername : option string)
    (items : list Item) (folders : list Folder)
  : result (list Folder) :=
  match items with
  | [] => Ok folders
  | item :: rest =>
      match kind item with
      | Kprefix =>
          let f := JsString.slice_0_m1 (name item) in
          if Zwila.otherFolder foldername f
          then listFolders_loop c foldername rest folders
          else
            (let? meta := getFolderMeta c f in
             let blobs := listFolderBlobs c f in
             listFolders_loop c foldername rest
               (folders ++ [mkFolder meta blobs]))%result
      | Kblob => listFolders_loop c foldername rest folders
      end
  end.

Definition listFolders (c : Container) (foldername : option string)
  : result (list Folder) :=
  listFolders_loop c foldername (listBlobsByHierarchy c EmptyString) [].

End Client.

Arguments mkFolder {J} _ _.
Arguments foldermeta {J} _.
Arguments folderblobs {J} _.

End Legacy.

(* ================================================================== *)
(** ** The metadata codec *)

Module Codec.
Local Open Scope Z_scope.

Record FolderMetadataRecord : Type := mkRecord {
  slug : string;
  description : string;
  expiry : string;              (* the absolute instant, as ISO text *)
  downloads : Z;
  message : option string
}.

(** The bytes [createFolder] writes for a record: lines 46, 47 and
    53-60 of zwila.js on the record's fields.  A falsy slug is replaced
    by a generated one ([rnd] is the entropy [nanoid] draws from), a
    falsy description by the empty string, and the template has
    [downloads = 0] as fixed text.  The record holds its expiry as the
    ISO text lines 48-52 produced. *)
Definition encode (rnd : nat -> Z) (r : FolderMetadataRecord) : string :=
  Zwila.metaText
    (Zwila.orDefault (Some (slug r)) (Nanoid.nanoid rnd))
    (Zwila.orDefault (Some (description r)) EmptyString)
    (expiry r) (message r).

Fixpoint parse_digits (s : string) (acc : Z) : option Z :=
  match s with
  | EmptyString => Some acc
  | String c s' =>
      if JsString.isDigit c
      then parse_digits s' (10 * acc + (Z.of_nat (nat_of_ascii c) - 48))
      else None
  end.

Definition parse_integer (s : string) : option Z :=
  match s with
  | EmptyString => None
  | _ => parse_digits s 0
  end.

Definition expect (p s field : string) : result string :=
  of_option (JsString.strip_prefix p s) (DecodeError field).

Definition until (c : ascii) (s field : string) : result (string * string) :=
  of_option (JsString.take_until c s) (DecodeError field).

(** Modelled from the spec: zwila.js has no decoder ([getFolderMeta]
    returns the stored text; the tests hand it to a TOML library).  The
    spec's codec (4.1): "a preamble block enumerating fields as
    key = value pairs, delimited by a fixed start/end marker, followed by a
    blank line and then the free-text message body verbatim (omitted
    entirely if absent)"; "slug and description are quoted text; expiry is
    an unquoted machine-readable absolute timestamp; downloads is an
    unquoted integer"; "malformed preamble (missing markers, unparseable
    timestamp, non-integer download count) surfaces a DecodeError
    identifying which field failed". *)
Definition decode (bytes : string) : result FolderMetadataRecord :=
  (let? s := expect ("+++" ++ JsString.NL) bytes "preamble" in
   let? s := expect "slug = '" s "slug" in
   let? (slug, s) := until "'" s "slug" in
   let? s := expect JsString.NL s "slug" in
   let? s := expect "description = '" s "description" in
   let? (description, s) := until "'" s "description" in
   let? s := expect JsString.NL s "description" in
   let? s := expect "expiry = " s "expiry" in
   let? (expiry, s) := until JsString.nl s "expiry" in
   let? _ := (if JsDate.isTimestamp expiry then Ok tt
              else Throw (DecodeError "expiry")) in
   let? s := expect "downloads = " s "downloads" in
   let? (dl, s) := until JsString.nl s "downloads" in
   let? downloads := of_option (parse_integer dl) (DecodeError "downloads") in
   let? s := expect ("+++" ++ JsString.NL) s "preamble" in
   match s with
   | EmptyString => Ok (mkRecord slug description expiry downloads None)
   | _ =>
       let? s := expect JsString.NL s "message" in
       let? body := of_option (JsString.strip_last JsString.nl s)
                              (DecodeError "message") in
       Ok (mkRecord slug description expiry downloads (Some body))
   end)%result.

End Codec.

(* ================================================================== *)
(** * Properties *)

Local Open Scope string_scope.

(** ** Facts about the string primitives *)

Section StringFacts.
Import JsString.

Lemma append_assoc_s (a b c : string) : (a ++ b) ++ c = a ++ (b ++ c).
Proof. induction a as [|x a IH]; simpl; [reflexivity | now rewrite IH]. Qed.

Lemma append_nil_r_s (a : string) : a ++ "" = a.
Proof. induction a as [|x a IH]; simpl; [reflexivity | now rewrite IH]. Qed.

Lemma length_append_s (a b : string) :
  String.length (a ++ b) = String.length a + String.length b.
Proof. induction a as [|x a IH]; simpl; [reflexivity | now rewrite IH]. Qed.

Lemma append_cancel_r (t a b : string) : a ++ t = b ++ t -> a = b.
Proof.
  revert b; induction a as [|x a IH]; intros [|y b] H; simpl in H.
  - reflexivity.
  - apply (f_equal String.length) in H; simpl in H.
    rewrite length_append_s in H; lia.
  - apply (f_equal String.length) in H; simpl in H.
    rewrite length_append_s in H; lia.
  - inversion H; subst; f_equal; now apply IH.
Qed.

Lemma prefix_append (p s : string) : String.prefix p (p ++ s) = true.
Proof.
  induction p as [|x p IH]; simpl.
  - now destruct s.
  - destruct (ascii_dec x x) as [_|n]; [exact IH | now destruct n].
Qed.

Lemma includes_append_r (a b : string) : includes (a ++ b) b = true.
Proof.
  induction a as [|x a IH]; simpl.
  - destruct b as [|y b]; simpl; [reflexivity|].
    generalize (prefix_append (String y b) ""); rewrite append_nil_r_s.
    simpl; intros ->; reflexivity.
  - rewrite IH; apply orb_true_r.
Qed.

Lemma strip_prefix_append (p s : string) : strip_prefix p (p ++ s) = Some s.
Proof.
  induction p as [|x p IH]; simpl; [reflexivity|].
  now rewrite Ascii.eqb_refl.
Qed.

Lemma strip_prefix_Some (p s r : string) :
  strip_prefix p s = Some r -> s = p ++ r.
Proof.
  revert s; induction p as [|x p IH]; intros s H; simpl in H.
  - now inversion H.
  - destruct s as [|y s]; [discriminate|].
    destruct (Ascii.eqb x y) eqn:E; [|discriminate].
    apply Ascii.eqb_eq in E; subst y; simpl; f_equal; now apply IH.
Qed.

Lemma take_until_append (c : ascii) (s r : string) :
  contains_char c s = false ->
  take_until c (s ++ String c r) = Some (s, r).
Proof.
  induction s as [|a s IH]; simpl; intros H.
  - now rewrite Ascii.eqb_refl.
  - apply orb_false_iff in H as [Ha Hs].
    rewrite Ha, (IH Hs); reflexivity.
Qed.

Lemma take_until_Some (c : ascii) (s a b : string) :
  take_until c s = Some (a, b) ->
  s = a ++ String c b /\ contains_char c a = false.
Proof.
  revert a b; induction s as [|x s IH]; simpl; intros a b H; [discriminate|].
  destruct (Ascii.eqb x c) eqn:E.
  - inversion H; subst; apply Ascii.eqb_eq in E; subst; now split.
  - destruct (take_until c s) as [[a' b']|] eqn:T; [|discriminate].
    inversion H; subst; destruct (IH _ _ eq_refl) as [-> Hc].
    split; [reflexivity | simpl; now rewrite E].
Qed.

Lemma take_until_None (c : ascii) (s : string) :
  take_until c s = None <-> contains_char c s = false.
Proof.
  induction s as [|x s IH]; simpl; [now split|].
  destruct (Ascii.eqb x c); simpl; [now split|].
  destruct (take_until c s) as [[a b]|]; split; intros H; try discriminate.
  - apply IH in H; discriminate.
  - now apply IH.
  - reflexivity.
Qed.

Lemma strip_last_append (c : ascii) (s : string) :
  strip_last c (s ++ String c "") = Some s.
Proof.
  induction s as [|a s IH]; simpl.
  - now rewrite Ascii.eqb_refl.
  - rewrite IH; destruct s; reflexivity.
Qed.

Lemma slice_0_m1_append (a : ascii) (s : string) :
  slice_0_m1 (s ++ String a "") = s.
Proof.
  induction s as [|x s IH]; simpl; [reflexivity|].
  rewrite IH; destruct s; reflexivity.
Qed.

Lemma substring_length_append (a b : string) :
  substring 0 (String.length a) (a ++ b) = a.
Proof.
  induction a as [|x a IH]; simpl.
  - now destruct b.
  - now rewrite IH.
Qed.

End StringFacts.

(** ** Facts about the container and its listing *)

Section StoreFacts.
Import Store JsString.

Lemma canon_append (a b : string) : canon (a ++ b) = canon a ++ canon b.
Proof. induction a as [|x a IH]; simpl; [reflexivity | now rewrite IH]. Qed.


(** A name without a backslash is stored as it is. *)
Lemma canon_id (s : string) : contains_char "\" s = false -> canon s = s.
Proof.
  induction s as [|x s IH]; simpl; [reflexivity|].
  intros H; apply orb_false_iff in H as [Hx Hs].
  now rewrite Hx, IH.
Qed.

(** A stored name without a slash comes from a request without a
    backslash, hence from that very name. *)
Lemma canon_no_slash (s : string) :
  contains_char "/" (canon s) = false -> canon s = s.
Proof.
  induction s as [|x s IH]; simpl; [reflexivity|].
  destruct (Ascii.eqb x "\") eqn:E; simpl; intros H.
  - discriminate.
  - apply orb_false_iff in H as [_ Hs]; now rewrite IH.
Qed.

Lemma find_put_same (c : Container) (k body : string) (ct : JsVal) :
  find (put c k body ct) k = Some body.
Proof.
  induction c as [|b c IH]; simpl.
  - now rewrite String.eqb_refl.
  - destruct (blobName b =? k) eqn:E; simpl.
    + now rewrite String.eqb_refl.
    + now rewrite E.
Qed.

Lemma find_put_other (c : Container) (k k' body : string) (ct : JsVal) :
  k <> k' -> find (put c k body ct) k' = find c k'.
Proof.
  intros Hn; induction c as [|b c IH]; simpl.
  - apply String.eqb_neq in Hn; now rewrite Hn.
  - destruct (blobName b =? k) eqn:E; simpl.
    + apply String.eqb_eq in E; subst k.
      apply String.eqb_neq in Hn; now rewrite Hn.
    + now rewrite IH.
Qed.

Lemma find_In (c : Container) (k body : string) :
  find c k = Some body ->
  exists b, In b c /\ blobName b = k /\ blobBody b = body.
Proof.
  induction c as [|b c IH]; simpl; [discriminate|].
  destruct (blobName b =? k) eqn:E; intros H.
  - inversion H; subst; apply String.eqb_eq in E.
    exists b; auto.
  - destruct (IH H) as (b' & Hin & Hb); exists b'; auto.
Qed.

Lemma download_upload_same (c : Container) (n body : string) (ct : JsVal) :
  download (upload c n body ct) n = Some body.
Proof. apply find_put_same. Qed.

(** A write leaves alone what is stored under another name. *)
Lemma download_upload_other (c : Container) (n n' body : string)
    (ct : JsVal) :
  canon n <> canon n' -> download (upload c n body ct) n' = download c n'.
Proof. apply find_put_other. Qed.

Lemma download_In (c : Container) (n body : string) :
  download c n = Some body ->
  exists b, In b c /\ blobName b = canon n /\ blobBody b = body.
Proof. apply find_In. Qed.

Lemma In_entries (pre : string) (c : Container) (it : Item) :
  In it (entries pre c) <-> exists b, In b c /\ entry pre b = Some it.
Proof.
  induction c as [|b c IH]; simpl.
  - split; [contradiction | now intros (? & [] & _)].
  - destruct (entry pre b) as [it'|] eqn:E; simpl; rewrite IH; split.
    + intros [<- | (b' & Hin & Hb')]; [exists b | exists b']; auto.
    + intros (b' & [<- | Hin] & Hb').
      * left; congruence.
      * right; exists b'; auto.
    + intros (b' & Hin & Hb'); exists b'; auto.
    + intros (b' & [<- | Hin] & Hb'); [congruence | exists b'; auto].
Qed.

Lemma In_namesOf (k : Kind) (l : list Item) (n : string) :
  In n (namesOf k l) <-> In (mkItem k n) l.
Proof.
  unfold namesOf; rewrite in_map_iff; split.
  - intros ([k' n'] & Hn & Hf); apply filter_In in Hf as [Hin Hk].
    simpl in *; subst n'.
    destruct k', k; simpl in Hk; try discriminate; exact Hin.
  - intros Hin; exists (mkItem k n); split; [reflexivity|].
    apply filter_In; split; [exact Hin | now destruct k].
Qed.

Lemma namesOf_app (k : Kind) (l l' : list Item) :
  namesOf k (l ++ l')%list = (namesOf k l ++ namesOf k l')%list.
Proof. unfold namesOf; now rewrite filter_app, map_app. Qed.

Lemma namesOf_map_same (k : Kind) (ns : list string) :
  namesOf k (map (mkItem k) ns) = ns.
Proof.
  unfold namesOf; induction ns as [|n ns IH]; simpl; [reflexivity|].
  destruct k; simpl; now rewrite IH.
Qed.

Lemma namesOf_map_other (k k' : Kind) (ns : list string) :
  k <> k' -> namesOf k (map (mkItem k') ns) = [].
Proof.
  intros Hk; unfold namesOf; induction ns as [|n ns IH]; simpl;
    [reflexivity|].
  destruct k, k'; simpl; congruence.
Qed.

(** The listing holds exactly the entries of the blobs, each virtual
    directory once. *)
Lemma In_listBlobsByHierarchy (c : Container) (pre : string) (it : Item) :
  In it (listBlobsByHierarchy c pre) <-> In it (entries pre c).
Proof.
  unfold listBlobsByHierarchy; rewrite in_app_iff, !in_map_iff.
  destruct it as [k n]; split.
  - intros [(n' & E & H) | (n' & E & H)]; inversion E; subst.
    + now apply nodup_In, In_namesOf in H.
    + now apply In_namesOf in H.
  - intros H; destruct k; [left | right]; exists n; split; trivial.
    + now apply nodup_In, In_namesOf.
    + now apply In_namesOf.
Qed.

Lemma prefixes_listBlobsByHierarchy (c : Container) (pre : string) :
  namesOf Kprefix (listBlobsByHierarchy c pre) =
  nodup string_dec (namesOf Kprefix (entries pre c)).
Proof.
  unfold listBlobsByHierarchy.
  rewrite namesOf_app, namesOf_map_same, namesOf_map_other by discriminate.
  apply app_nil_r.
Qed.

(** A blob item of the listing is a blob stored directly under [pre]. *)
Lemma blob_entry_iff (pre : string) (b : Blob) (n : string) :
  entry pre b = Some (mkItem Kblob n) <->
  blobName b = n /\
  exists rest, strip_prefix pre n = Some rest /\
               contains_char "/" rest = false.
Proof.
  unfold entry; split.
  - destruct (strip_prefix pre (blobName b)) as [rest|] eqn:P;
      [|discriminate].
    destruct (take_until "/" rest) as [[d r]|] eqn:T; intros H;
      inversion H; subst.
    split; [reflexivity|]; exists rest; split; [exact P|].
    now apply take_until_None.
  - intros (<- & rest & P & Hc); rewrite P.
    apply take_until_None in Hc; now rewrite Hc.
Qed.

(** A prefix item of the listing is [pre], a directory name, and ["/"]. *)
Lemma prefix_entry_shape (pre : string) (b : Blob) (n : string) :
  entry pre b = Some (mkItem Kprefix n) ->
  exists dir, n = pre ++ dir ++ "/".
Proof.
  unfold entry.
  destruct (strip_prefix pre (blobName b)) as [rest|]; [|discriminate].
  destruct (take_until "/" rest) as [[d r]|]; intros H; inversion H.
  now exists d.
Qed.

End StoreFacts.

(* ================================================================== *)
(** ** Sample data *)

Section Samples.
Import Store Zwila.
Local Open Scope Z_scope.

(** 2021-07-05T00:00:00.123Z *)
Definition sampleNow : Z := 1625443200123.

Definition sampleRnd (i : nat) : Z := Z.of_nat (i * 37 + 5).

(** A date parser that understands nothing: enough where the samples pass
    their dates as [Date] objects. *)
Definition noDateParse (s : string) : option Z := None.

(** A stand-in for the signer: it prints what it was asked to sign. *)
Definition sampleSigner (v : BlobSASSignatureValues) : result string :=
  match startsOn v, expiresOn v with
  | Some st, Some se =>
      Ok ("st=" ++ JsDate.isoOfTime st ++ "&se=" ++ JsDate.isoOfTime se ++
          "&sp=" ++ permissions v ++ "&sig=" ++ blobName v)%string
  | _, _ => Throw (SigningError "Invalid time value")
  end.

(** A date parser that understands the one text ["2021-07-06"], a
    date-only form, read as midnight UTC. *)
Definition sampleDateParse (s : string) : option Z :=
  if (s =? "2021-07-06")%string then Some 1625529600000 else None.

Definition run {A} (m : M A) (c : Container) : Container := fst (m c).

Definition sampleCreate :=
  createFolder "acct" "cont" noDateParse sampleNow sampleRnd.

Definition sampleUpload (filetype : option string) (isBinary : bool)
    (body : string) :=
  uploadFile "acct" "cont" (Readable body filetype) isBinary.

(** Folder [a]: its metadata, one picture, one picture a level deeper,
    and notes whose name ends like the metadata object's. *)
Definition sampleFolder : Container :=
  run (sampleUpload None false "my notes" "/tmp/notes.md"
         "a" "notes_zwila.md")
    (run (sampleUpload (Some "image/png") true "PNG" "/tmp/rhino.png"
            "a" "sub/deep.png")
       (run (sampleUpload (Some "image/png") true "PNG" "/tmp/rhino.png"
               "a" "rhino.png")
          (run (sampleCreate (Some "a") (Some "pictures") None None) []))).

(** The container of the expiry test: folder [zwila-test-expired], whose
    expiry lies five minutes before [sampleNow]. *)
Definition expiredContainer : Container :=
  run (sampleCreate (Some "zwila-test-expired")
         (Some "Test folder used by AVA test runner during development.")
         (Some (ExpiryDate (Some (sampleNow - 5 * 60 * 1000))))
         (Some "## Your downloads are available"))
    [].

(** Folder [bad], whose metadata object holds text that is no metadata
    record, next to folder [good]. *)
Definition corruptContainer : Container :=
  run (sampleCreate (Some "good") (Some "fine") None None)
    (run (sampleUpload None false "garbage" "/tmp/x.md" "bad" metafilename)
       []).

End Samples.

(* ================================================================== *)
(** ** listFolderBlobs *)

Section ListFolderBlobs.
Import Store Zwila JsString.

(** The metadata object of a folder is filtered out by name. *)
Lemma metafile_includes (slug : string) :
  includes (slug ++ "/" ++ metafilename) metafilename = true.
Proof.
  rewrite <- append_assoc_s; apply includes_append_r.
Qed.

(** C3 (as amended): [listFolderBlobs slug] returns only blobs stored
    directly under [slug/] (no further ["/"] in the rest of the name), never
    the reserved metadata object [slug/_zwila.md]; and every blob stored
    directly under [slug/] whose name does not contain the reserved name
    is returned. *)
Theorem listFolderBlobs_direct_members (c : Container) (slug : string) :
  (forall it, In it (listFolderBlobs c slug) ->
     kind it = Kblob /\
     name it <> slug ++ "/" ++ metafilename /\
     exists b rest, In b c /\ Store.blobName b = name it /\
                    name it = (slug ++ "/") ++ rest /\
                    contains_char "/" rest = false) /\
  (forall b rest, In b c ->
     Store.blobName b = (slug ++ "/") ++ rest ->
     contains_char "/" rest = false ->
     includes (Store.blobName b) metafilename = false ->
     In (mkItem Kblob (Store.blobName b)) (listFolderBlobs c slug)).
Proof.
  unfold listFolderBlobs; split.
  - intros [k n] Hin; apply filter_In in Hin as [Hin Hf]; simpl in *.
    apply andb_true_iff in Hf as [Hk Hinc].
    destruct k; [discriminate|].
    apply In_listBlobsByHierarchy, In_entries in Hin as (b & Hb & He).
    apply blob_entry_iff in He as (Hn & rest & Hp & Hc).
    split; [reflexivity|]; split.
    + intros ->; rewrite metafile_includes in Hinc; discriminate.
    + exists b, rest; repeat split; trivial.
      now apply strip_prefix_Some.
  - intros b rest Hb Hn Hc Hinc; apply filter_In; simpl; split.
    + apply In_listBlobsByHierarchy, In_entries; exists b; split; trivial.
      apply blob_entry_iff; split; [reflexivity|].
      exists rest; split; [|exact Hc].
      rewrite Hn; apply strip_prefix_append.
    + now rewrite Hinc.
Qed.

Lemma listFolderBlobs_direct_members_witness :
  In (mkItem Kblob "a/rhino.png") (listFolderBlobs sampleFolder "a") /\
  "a/rhino.png" <> "a/" ++ metafilename.
Proof.
  destruct (listFolderBlobs_direct_members sampleFolder "a") as [Hsound Hcomplete].
  assert (Hin : In (mkItem Kblob "a/rhino.png")
                   (listFolderBlobs sampleFolder "a")).
  { apply (Hcomplete (mkBlob "a/rhino.png" "PNG" (JString "image/png"))
                     "rhino.png").
    - vm_compute; auto.
    - reflexivity.
    - reflexivity.
    - reflexivity. }
  split; [exact Hin|].
  exact (proj1 (proj2 (Hsound _ Hin))).
Defined.

(** C3 (as stated) fails: [a/sub/deep.png] and [a/notes_zwila.md] are
    stored under the prefix [a/] and neither is the metadata object, yet
    the listing of folder [a] is the one picture at the top of the folder.
    The first is a level deeper, which the hierarchical listing reports as
    a prefix; the second has a name that contains the reserved name. *)
Lemma listFolderBlobs_skips_nested :
  download sampleFolder "a/sub/deep.png" = Some "PNG" /\
  strip_prefix "a/" "a/sub/deep.png" = Some "sub/deep.png" /\
  download sampleFolder "a/notes_zwila.md" = Some "my notes" /\
  strip_prefix "a/" "a/notes_zwila.md" = Some "notes_zwila.md" /\
  listFolderBlobs sampleFolder "a" = [mkItem Kblob "a/rhino.png"].
Proof. vm_compute; repeat split. Qed.

(** The name test is a substring test on the whole path: under a slug
    that contains the reserved name nothing is listed. *)
Example listFolderBlobs_substring :
  listFolderBlobs
    (run (sampleUpload (Some "image/png") true "PNG" "/tmp/rhino.png"
            "x_zwila.md" "rhino.png") []) "x_zwila.md"
  = [].
Proof. vm_compute; reflexivity. Qed.

End ListFolderBlobs.

(* ================================================================== *)
(** ** util.js *)

Section ContentTypeFacts.
Import Util JsString.

Lemma split_no_sep (sep : ascii) (s : string) :
  contains_char sep s = false -> split sep s = [s].
Proof.
  induction s as [|a s IH]; simpl; [reflexivity|].
  intros H; apply orb_false_iff in H as [Ha Hs].
  now rewrite Ha, (IH Hs).
Qed.

Lemma split_nonempty (sep : ascii) (s : string) : split sep s <> [].
Proof.
  induction s as [|a s IH]; simpl; [discriminate|].
  destruct (Ascii.eqb a sep); [discriminate|].
  destruct (split sep s); discriminate.
Qed.

Lemma split_append (sep : ascii) (a b : string) :
  exists h l, split sep (a ++ String sep b) = ((h :: l) ++ split sep b)%list.
Proof.
  induction a as [|x a (h & l & IH)]; simpl.
  - rewrite Ascii.eqb_refl; now exists "", [].
  - rewrite IH; destruct (Ascii.eqb x sep).
    + now exists "", (h :: l).
    + now exists (String x h), l.
Qed.

Lemma last_app_nonempty {A} (l l' : list A) (d : A) :
  l' <> [] -> last (l ++ l') d = last l' d.
Proof.
  intros Hl'; induction l as [|x l IH]; simpl; [reflexivity|].
  rewrite <- IH; destruct (l ++ l')%list eqn:E; [|reflexivity].
  apply app_eq_nil in E as [_ E]; contradiction.
Qed.

Lemma last_split_append (sep : ascii) (a b : string) :
  last (split sep (a ++ String sep b)) "" = last (split sep b) "".
Proof.
  destruct (split_append sep a b) as (h & l & ->).
  apply last_app_nonempty, split_nonempty.
Qed.

(** The extension is what follows the last dot of the path. *)
Lemma getFileExtension_suffix (base ext : string) :
  contains_char "." ext = false ->
  _getFileExtension (base ++ String "." ext) = ext.
Proof.
  intros H; unfold _getFileExtension.
  now rewrite last_split_append, (split_no_sep _ _ H).
Qed.

(** C9 (as amended): when the signature sniff finds nothing and the path
    has no binary extension, [.txt], [.xml], [.csv] and [.md] are mapped
    to [text/plain], [text/xml], [text/csv] and
    [text/markdown; charset=UTF-8]; the result is the empty string when
    the sniff found a type but the path has no binary extension, and when
    the sniff found nothing but the path has a binary extension. *)
Theorem getContentTypeFromFile_table (base : string) :
  _getContentTypeFromFile textMimeTypes None false (base ++ ".txt")
    = JString "text/plain" /\
  _getContentTypeFromFile textMimeTypes None false (base ++ ".xml")
    = JString "text/xml" /\
  _getContentTypeFromFile textMimeTypes None false (base ++ ".csv")
    = JString "text/csv" /\
  _getContentTypeFromFile textMimeTypes None false (base ++ ".md")
    = JString "text/markdown; charset=UTF-8" /\
  (forall mime path,
     _getContentTypeFromFile textMimeTypes (Some mime) false path
       = JString "") /\
  (forall path,
     _getContentTypeFromFile textMimeTypes None true path = JString "").
Proof.
  unfold _getContentTypeFromFile.
  repeat split; try reflexivity;
    rewrite (getFileExtension_suffix base) by reflexivity; reflexivity.
Qed.

(** C9 (as stated) fails on [.md]: the current table answers with a
    charset parameter, the first table has no entry for it; and for an
    extension outside the table, with nothing sniffed, the result is
    [undefined], not the empty string. *)
Lemma getContentTypeFromFile_md :
  _getContentTypeFromFile textMimeTypes None false "README.md"
    = JString "text/markdown; charset=UTF-8" /\
  ("text/markdown; charset=UTF-8" =? "text/markdown") = false /\
  _getContentTypeFromFile textMimeTypes_v1 None false "README.md"
    = JUndefined /\
  _getContentTypeFromFile textMimeTypes None false "server.log"
    = JUndefined.
Proof. vm_compute; repeat split. Qed.

(** The lookup goes through the prototype chain: an extension that names
    a member of [Object.prototype] yields that member. *)
Example getContentTypeFromFile_inherited :
  _getContentTypeFromFile textMimeTypes None false "notes.constructor"
    = JInherited "constructor".
Proof. vm_compute; reflexivity. Qed.

End ContentTypeFacts.

(* ================================================================== *)
(** ** Dates *)

Section DateFacts.
Import JsDate JsString.
Local Open Scope Z_scope.

Lemma isDigit_digitChar (n : Z) : isDigit (digitChar (n mod 10)) = true.
Proof.
  assert (H : 0 <= n mod 10 < 10) by (apply Z.mod_pos_bound; lia).
  assert (E : n mod 10 = 0 \/ n mod 10 = 1 \/ n mod 10 = 2 \/ n mod 10 = 3 \/
              n mod 10 = 4 \/ n mod 10 = 5 \/ n mod 10 = 6 \/ n mod 10 = 7 \/
              n mod 10 = 8 \/ n mod 10 = 9) by lia.
  repeat (destruct E as [E | E]; [rewrite E; reflexivity|]).
  rewrite E; reflexivity.
Qed.

Lemma length_padZ (w : nat) (n : Z) : String.length (padZ w n) = w.
Proof.
  revert n; induction w as [|w IH]; intros n; simpl; [reflexivity|].
  rewrite length_append_s, IH; simpl; lia.
Qed.

(** Thirty-one days later is thirty-one day numbers later. *)
Lemma Day_plus_31_days (now : Z) :
  Day (now + 31 * 24 * 60 * 60 * 1000) = Day now + 31.
Proof.
  unfold Day, msPerDay.
  replace (now + 31 * 24 * 60 * 60 * 1000) with (now + 31 * 86400000) by lia.
  apply Z.div_add; lia.
Qed.

(** The days of the years 0000 to 9999, which are printed with four
    digits. *)
Lemma YearFromDay_range (d : Z) :
  -719528 <= d <= 2932896 -> 0 <= YearFromDay d <= 9999.
Proof.
  intros H; unfold YearFromDay, civil_from_days; cbv zeta.
  set (z := d + 719468).
  set (era := z / 146097).
  set (doe := z - era * 146097).
  set (yoe := (doe - doe / 1460 + doe / 36524 - doe / 146096) / 365).
  set (doy := doe - (365 * yoe + yoe / 4 - yoe / 100)).
  set (mp := (5 * doy + 2) / 153).
  destruct (mp <? 10) eqn:E1.
  - replace (mp + 3 <=? 2) with false.
    2:{ symmetry; apply Z.leb_gt; unfold mp, doy, yoe, doe, era, z.
        Z.div_mod_to_equations; lia. }
    simpl fst; apply Z.ltb_lt in E1.
    unfold mp, doy, yoe, doe, era, z in *; Z.div_mod_to_equations; lia.
  - replace (mp - 9 <=? 2) with true.
    2:{ symmetry; apply Z.leb_le; unfold mp, doy, yoe, doe, era, z.
        Z.div_mod_to_equations; lia. }
    simpl fst; apply Z.ltb_ge in E1.
    unfold mp, doy, yoe, doe, era, z in *; Z.div_mod_to_equations; lia.
Qed.

(** The first ten characters of the ISO text are the date of the day, for
    the years printed with four digits. *)
Lemma dateComponent_isoOfTime (t : Z) :
  0 <= YearFromDay (Day t) <= 9999 ->
  dateComponent (isoOfTime t) = isoDate (Day t).
Proof.
  unfold dateComponent, isoOfTime, isoDate, YearFromDay.
  destruct (civil_from_days (Day t)) as [[y m] d]; simpl fst.
  intros Hy; unfold isoYear.
  replace ((0 <=? y) && (y <=? 9999)) with true
    by (symmetry; apply andb_true_iff; split; apply Z.leb_le; lia).
  cbn -[Z.div Z.modulo digitChar]; reflexivity.
Qed.

(** [toISOString] always prints one of its three shapes. *)
Lemma isTimestamp_isoOfTime (t : Z) : isTimestamp (isoOfTime t) = true.
Proof.
  unfold isTimestamp, isoOfTime, isoDate.
  destruct (civil_from_days (Day t)) as [[y m] d]; unfold isoYear.
  destruct ((0 <=? y) && (y <=? 9999)); [|destruct (y <? 0)];
    cbn -[Z.div Z.modulo digitChar isDigit];
    rewrite !isDigit_digitChar; cbn; rewrite ?orb_true_r; reflexivity.
Qed.

End DateFacts.

(* ================================================================== *)
(** ** nanoid *)

Section NanoidFacts.
Import Nanoid.
Local Open Scope Z_scope.

Lemma length_nanoid_loop (rnd : nat -> Z) (size : nat) :
  String.length (nanoid_loop rnd size) = size.
Proof. induction size as [|n IH]; simpl; [reflexivity | now rewrite IH]. Qed.

Lemma urlAlphabet_urlSafe (i : Z) :
  0 <= i < 64 -> urlSafe (charAt urlAlphabet i) = true.
Proof.
  intros Hi.
  assert (H : forallb (fun n => urlSafe (charAt urlAlphabet (Z.of_nat n)))
                      (seq 0 64) = true) by (vm_compute; reflexivity).
  rewrite forallb_forall in H.
  specialize (H (Z.to_nat i)); rewrite Z2Nat.id in H by lia.
  apply H, in_seq; lia.
Qed.

Lemma land_63_bounds (x : Z) : 0 <= Z.land x 63 < 64.
Proof.
  change 63 with (Z.ones 6); rewrite Z.land_ones by lia.
  apply Z.mod_pos_bound; reflexivity.
Qed.

Lemma urlSafe_nanoid_loop (rnd : nat -> Z) (size : nat) :
  all_chars urlSafe (nanoid_loop rnd size) = true.
Proof.
  induction size as [|n IH]; simpl; [reflexivity|].
  rewrite IH, urlAlphabet_urlSafe by apply land_63_bounds; reflexivity.
Qed.

End NanoidFacts.

(* ================================================================== *)
(** ** createFolder *)

Section CreateFolder.
Import Store Zwila.
Local Open Scope Z_scope.

Variables account container : string.
Variable Date_parse : string -> option Z.

Local Abbreviation createFolder := (Zwila.createFolder account container Date_parse).
Local Abbreviation blobUrl := (Zwila.blobUrl account container).
Local Abbreviation normalizeExpiry := (Zwila.normalizeExpiry Date_parse).
Local Abbreviation newDate := (Zwila.newDate Date_parse).

(** The one write of [createFolder], and what it returns, once the expiry
    text is known. *)
Definition created (c : Container) (slug description expiry : string)
    (message : option string) : Container * result CreateFolderResult :=
  (upload c (slug ++ "/" ++ metafilename)
     (metaText slug description expiry message)
     (JString "text/markdown; charset=UTF-8"),
   Ok (mkCreated (metaText slug description expiry message)
                 (blobUrl (slug ++ "/" ++ metafilename)))).

Lemma createFolder_Ok now rnd slug description expiry message c iso :
  normalizeExpiry now expiry = Ok iso ->
  createFolder now rnd slug description expiry message c =
  created c (orDefault slug (Nanoid.nanoid rnd))
            (orDefault description "") iso message.
Proof.
  intros H; unfold Zwila.createFolder, bind, lift, uploadM, ret, created.
  now rewrite H.
Qed.

Lemma createFolder_Throw now rnd slug description expiry message c e :
  normalizeExpiry now expiry = Throw e ->
  createFolder now rnd slug description expiry message c = (c, Throw e).
Proof.
  intros H; unfold Zwila.createFolder, bind, lift.
  now rewrite H.
Qed.

Lemma orDefault_falsy (x : option string) (d : string) :
  truthy x = false -> orDefault x d = d.
Proof.
  destruct x as [s|]; simpl; [|reflexivity].
  destruct (s =? "")%string; [reflexivity | discriminate].
Qed.

(** C7: with no slug argument the folder is created under a generated
    slug of exactly 21 characters, each an ASCII letter, a digit, an
    underscore or a hyphen. *)
Theorem createFolder_generated_slug
    now rnd slug description expiry message c iso :
  truthy slug = false ->
  normalizeExpiry now expiry = Ok iso ->
  createFolder now rnd slug description expiry message c =
    created c (Nanoid.nanoid rnd) (orDefault description "") iso message /\
  String.length (Nanoid.nanoid rnd) = 21%nat /\
  Nanoid.all_chars Nanoid.urlSafe (Nanoid.nanoid rnd) = true.
Proof.
  intros Hs He; split; [|split].
  - rewrite (createFolder_Ok _ _ _ _ _ _ _ _ He).
    now rewrite (orDefault_falsy _ _ Hs).
  - apply length_nanoid_loop.
  - apply urlSafe_nanoid_loop.
Qed.

(** [createFolder] succeeds and stores, as the metadata object of the
    folder it names, the frontmatter whose expiry line carries the text
    [iso]; that text is also the [meta] it returns. *)
Definition storesExpiry (now : Z) (rnd : nat -> Z)
    (slug description : option string) (expiry : option ExpiryArg)
    (message : option string) (c : Container) (iso : string) : Prop :=
  exists c' res s d,
    createFolder now rnd slug description expiry message c = (c', Ok res) /\
    download c' (s ++ "/" ++ "_zwila.md") = Some (meta res) /\
    meta res =
      ("+++" ++ JsString.NL ++
       "slug = '" ++ s ++ "'" ++ JsString.NL ++
       "description = '" ++ d ++ "'" ++ JsString.NL ++
       "expiry = " ++ iso ++ JsString.NL ++
       "downloads = 0" ++ JsString.NL ++
       "+++" ++ JsString.NL ++
       match message with
       | Some m => if (m =? "")%string then ""
                   else JsString.NL ++ m ++ JsString.NL
       | None => ""
       end)%string.

Lemma storesExpiry_intro now rnd slug description expiry message c iso :
  normalizeExpiry now expiry = Ok iso ->
  storesExpiry now rnd slug description expiry message c iso.
Proof.
  intros He; unfold storesExpiry.
  rewrite (createFolder_Ok _ _ _ _ _ _ _ _ He); unfold created.
  eexists; eexists; eexists; eexists; split; [reflexivity|]; split.
  - apply download_upload_same.
  - reflexivity.
Qed.

(** C6: with no expiry argument (or an empty one) the folder is stored
    with the ISO text of [now] plus 31 days as its expiry, and the date
    component of that text is the date 31 days after today's; a Date, or
    a string the engine parses to an instant, is stored as the ISO text of
    that instant. *)
Theorem createFolder_expiry_normalized
    now rnd slug description message c :
  (forall expiry,
     expiry = None \/ expiry = Some (ExpiryString "") ->
     -62167219200000 <= now + 31 * 24 * 60 * 60 * 1000 <= 253402300799999 ->
     storesExpiry now rnd slug description expiry message c
       (JsDate.isoOfTime (now + 31 * 24 * 60 * 60 * 1000)) /\
     JsDate.dateComponent (JsDate.isoOfTime (now + 31 * 24 * 60 * 60 * 1000))
       = JsDate.isoDate (JsDate.Day now + 31)) /\
  (forall t,
     Z.abs t <= JsDate.maxTime ->
     storesExpiry now rnd slug description (Some (ExpiryDate (Some t)))
       message c (JsDate.isoOfTime t) /\
     JsDate.isTimestamp (JsDate.isoOfTime t) = true) /\
  (forall text t,
     text <> ""%string ->
     Date_parse text = Some t ->
     Z.abs t <= JsDate.maxTime ->
     storesExpiry now rnd slug description (Some (ExpiryString text))
       message c (JsDate.isoOfTime t) /\
     JsDate.isTimestamp (JsDate.isoOfTime t) = true).
Proof.
  split; [|split].
  - intros expiry Hg Hrange; split.
    + apply storesExpiry_intro.
      unfold Zwila.normalizeExpiry, JsDate.TimeClip.
      replace (Z.abs (now + 31 * 24 * 60 * 60 * 1000) <=? JsDate.maxTime)
        with true
        by (symmetry; apply Z.leb_le; unfold JsDate.maxTime; lia).
      destruct Hg as [-> | ->]; reflexivity.
    + rewrite dateComponent_isoOfTime; rewrite Day_plus_31_days; trivial.
      apply YearFromDay_range; rewrite <- Day_plus_31_days.
      unfold JsDate.Day, JsDate.msPerDay; Z.div_mod_to_equations; lia.
  - intros t Ht; split; [|apply isTimestamp_isoOfTime].
    apply storesExpiry_intro.
    unfold Zwila.normalizeExpiry, Zwila.newDate, JsDate.TimeClip; simpl.
    apply Z.leb_le in Ht; now rewrite Ht.
  - intros text t Hne Hp Ht; split; [|apply isTimestamp_isoOfTime].
    apply storesExpiry_intro.
    unfold Zwila.normalizeExpiry, Zwila.newDate, JsDate.TimeClip; simpl.
    apply String.eqb_neq in Hne; rewrite Hne, Hp; simpl.
    apply Z.leb_le in Ht; now rewrite Ht.
Qed.

(** C10 (as amended): an expiry that is an invalid Date, or a string
    other than the empty one that the engine cannot parse, makes
    [createFolder] throw the RangeError of [toISOString]; nothing is
    written: the container is the one it was called on.  The empty
    string is taken for no expiry argument. *)
Theorem createFolder_invalid_expiry
    now rnd slug description message c :
  (forall e,
     e = ExpiryDate None \/
     (exists text, e = ExpiryString text /\ text <> ""%string /\
                   Date_parse text = None) ->
     createFolder now rnd slug description (Some e) message c =
       (c, Throw (RangeError "Invalid time value"))) /\
  createFolder now rnd slug description (Some (ExpiryString "")) message c
    = createFolder now rnd slug description None message c.
Proof.
  split; [|reflexivity].
  intros e He; apply createFolder_Throw; unfold Zwila.normalizeExpiry.
  destruct He as [-> | (text & -> & Hne & Hp)]; simpl; [reflexivity|].
  apply String.eqb_neq in Hne; now rewrite Hne, Hp.
Qed.

End CreateFolder.

Section CreateFolderWitnesses.
Import Store Zwila.
Local Open Scope Z_scope.

Lemma createFolder_generated_slug_witness :
  sampleCreate None None None None [] =
    created "acct" "cont" [] "OnYy5bTSsVqPG-DcAj3Ld" ""
      "2021-08-05T00:00:00.123Z" None /\
  String.length (Nanoid.nanoid sampleRnd) = 21%nat /\
  Nanoid.all_chars Nanoid.urlSafe (Nanoid.nanoid sampleRnd) = true.
Proof.
  apply (createFolder_generated_slug "acct" "cont" noDateParse sampleNow
           sampleRnd None None None None [] "2021-08-05T00:00:00.123Z");
    reflexivity.
Defined.

Lemma createFolder_expiry_normalized_witness :
  (storesExpiry "acct" "cont" sampleDateParse sampleNow sampleRnd
     (Some "a") (Some "pictures") None None [] "2021-08-05T00:00:00.123Z" /\
   JsDate.dateComponent "2021-08-05T00:00:00.123Z" = "2021-08-05"%string) /\
  storesExpiry "acct" "cont" sampleDateParse sampleNow sampleRnd
    (Some "a") (Some "pictures") (Some (ExpiryDate (Some 0))) None []
    "1970-01-01T00:00:00.000Z" /\
  storesExpiry "acct" "cont" sampleDateParse sampleNow sampleRnd
    (Some "a") (Some "pictures") (Some (ExpiryString "2021-07-06")) None []
    "2021-07-06T00:00:00.000Z".
Proof.
  destruct (createFolder_expiry_normalized "acct" "cont" sampleDateParse
              sampleNow sampleRnd (Some "a") (Some "pictures") None [])
    as (Hdefault & Hdate & Htext).
  split; [|split].
  - apply (Hdefault None).
    + now left.
    + vm_compute; split; discriminate.
  - apply (Hdate 0); vm_compute; discriminate.
  - apply (Htext "2021-07-06"%string 1625529600000).
    + discriminate.
    + reflexivity.
    + vm_compute; discriminate.
Defined.

Lemma createFolder_invalid_expiry_witness :
  sampleCreate (Some "a") None (Some (ExpiryString "next tuesday")) None
    sampleFolder
  = (sampleFolder, Throw (RangeError "Invalid time value")).
Proof.
  apply (proj1 (createFolder_invalid_expiry "acct" "cont" noDateParse
                  sampleNow sampleRnd (Some "a") None None sampleFolder)).
  right; exists "next tuesday"%string; repeat split; discriminate.
Defined.

(** C10 (as stated) fails: the empty string is an expiry argument that
    does not parse as a date, yet [createFolder] does not throw; it takes
    the argument for none and writes the folder with the default expiry. *)
Lemma createFolder_empty_expiry :
  noDateParse "" = None /\
  sampleCreate (Some "a") None (Some (ExpiryString "")) None [] =
    ([mkBlob "a/_zwila.md"
        ("+++" ++ JsString.NL ++ "slug = 'a'" ++ JsString.NL ++
         "description = ''" ++ JsString.NL ++
         "expiry = 2021-08-05T00:00:00.123Z" ++ JsString.NL ++
         "downloads = 0" ++ JsString.NL ++ "+++" ++ JsString.NL)%string
        (JString "text/markdown; charset=UTF-8")],
     Ok (mkCreated
           ("+++" ++ JsString.NL ++ "slug = 'a'" ++ JsString.NL ++
            "description = ''" ++ JsString.NL ++
            "expiry = 2021-08-05T00:00:00.123Z" ++ JsString.NL ++
            "downloads = 0" ++ JsString.NL ++ "+++" ++ JsString.NL)%string
           "https://acct.blob.core.windows.net/cont/a/_zwila.md")).
Proof. vm_compute; split; reflexivity. Qed.

End CreateFolderWitnesses.

(* ================================================================== *)
(** ** getSASUrl *)

Section GetSASUrl.
Import Zwila.
Local Open Scope Z_scope.

Variables account container : string.
Variable sign : BlobSASSignatureValues -> result string.

Local Abbreviation getSASUrl := (Zwila.getSASUrl account container sign).
Local Abbreviation blobUrl := (Zwila.blobUrl account container).
Local Abbreviation sasValues := (Zwila.sasValues container).

(** C5: the signer is asked for a read-only token on [slug/filename]
    valid from ten minutes before now until [minutes] (60 when omitted)
    after now; its token is appended to the address of [slug/filename]
    after a question mark; when it throws, so does [getSASUrl]; another
    [minutes] changes nothing but the end of the validity window. *)
Theorem getSASUrl_shape now1 now2 slug filename minutes :
  Z.abs (now1 - 10 * 60 * 1000) <= JsDate.maxTime ->
  Z.abs (now2 + match minutes with Some m => m | None => 60 end * 60 * 1000)
    <= JsDate.maxTime ->
  (containerName (sasValues now1 now2 slug filename minutes) = container /\
   blobName (sasValues now1 now2 slug filename minutes)
     = slug ++ "/" ++ filename /\
   permissions (sasValues now1 now2 slug filename minutes) = "r" /\
   startsOn (sasValues now1 now2 slug filename minutes)
     = Some (now1 - 10 * 60 * 1000) /\
   expiresOn (sasValues now1 now2 slug filename minutes)
     = Some (now2 +
             match minutes with Some m => m | None => 60 end * 60 * 1000)) /\
  (forall token,
     sign (sasValues now1 now2 slug filename minutes) = Ok token ->
     getSASUrl now1 now2 slug filename minutes
       = Ok (blobUrl (slug ++ "/" ++ filename) ++ "?" ++ token)) /\
  (forall e,
     sign (sasValues now1 now2 slug filename minutes) = Throw e ->
     getSASUrl now1 now2 slug filename minutes = Throw e) /\
  (forall minutes',
     containerName (sasValues now1 now2 slug filename minutes')
       = containerName (sasValues now1 now2 slug filename minutes) /\
     blobName (sasValues now1 now2 slug filename minutes')
       = blobName (sasValues now1 now2 slug filename minutes) /\
     startsOn (sasValues now1 now2 slug filename minutes')
       = startsOn (sasValues now1 now2 slug filename minutes) /\
     permissions (sasValues now1 now2 slug filename minutes')
       = permissions (sasValues now1 now2 slug filename minutes)).
Proof.
  intros Hs He; repeat split.
  - unfold Zwila.sasValues; cbn [startsOn]; unfold JsDate.TimeClip.
    apply Z.leb_le in Hs; now rewrite Hs.
  - unfold Zwila.sasValues; cbn [expiresOn]; unfold JsDate.TimeClip.
    apply Z.leb_le in He; now rewrite He.
  - intros token H; unfold Zwila.getSASUrl; now rewrite H.
  - intros e H; unfold Zwila.getSASUrl; now rewrite H.
Qed.

End GetSASUrl.

Lemma getSASUrl_shape_witness :
  Zwila.getSASUrl "acct" "cont" sampleSigner sampleNow sampleNow
    "a" "rhino.png" None
  = Ok ("https://acct.blob.core.windows.net/cont/a/rhino.png" ++ "?" ++
        "st=2021-07-04T23:50:00.123Z&se=2021-07-05T01:00:00.123Z" ++
        "&sp=r&sig=a/rhino.png").
Proof.
  refine (proj1 (proj2 (getSASUrl_shape "acct" "cont" sampleSigner
                          sampleNow sampleNow "a" "rhino.png" None _ _))
                _ _).
  - vm_compute; discriminate.
  - vm_compute; discriminate.
  - reflexivity.
Defined.

(* ================================================================== *)
(** ** listFolders *)

Section ListFolders.
Import Store Zwila JsString.

(** The folders of a container: its first-level prefixes, each without
    the trailing separator. *)
Definition folderNames (c : Container) : list string :=
  map slice_0_m1 (namesOf Kprefix (listBlobsByHierarchy c "")).

(** What [listFolders] pushes for folder [f] once its metadata is read. *)
Definition folderOf (c : Container) (f : string) : Folder :=
  mkFolder
    (match download c (f ++ "/" ++ metafilename) with
     | Some md => md
     | None => ""
     end)
    (listFolderBlobs c f).

Lemma top_prefix_shape (c : Container) (n : string) :
  In n (namesOf Kprefix (entries "" c)) -> exists dir, n = dir ++ "/".
Proof.
  intros H; apply In_namesOf, In_entries in H as (b & _ & He).
  apply prefix_entry_shape in He as (dir & ->); now exists dir.
Qed.

Lemma NoDup_folderNames (c : Container) : NoDup (folderNames c).
Proof.
  unfold folderNames; rewrite prefixes_listBlobsByHierarchy.
  apply NoDup_map_NoDup_ForallPairs; [|apply NoDup_nodup].
  intros x y Hx Hy E.
  apply nodup_In, top_prefix_shape in Hx as (dx & ->).
  apply nodup_In, top_prefix_shape in Hy as (dy & ->).
  rewrite !slice_0_m1_append in E; now subst.
Qed.

Lemma otherFolder_falsy (slug : option string) (f : string) :
  truthy slug = false -> otherFolder slug f = false.
Proof.
  destruct slug as [s|]; simpl; [|reflexivity].
  now intros ->.
Qed.

(** Without a slug filter the loop pushes one entry per prefix item, in
    order, as long as each folder has a metadata object. *)
Lemma listFolders_loop_all (c : Container) (slug : option string) :
  truthy slug = false ->
  forall items acc,
    (forall f, In f (map slice_0_m1 (namesOf Kprefix items)) ->
               exists md, download c (f ++ "/" ++ metafilename) = Some md) ->
    listFolders_loop c slug items acc =
    Ok (acc ++ map (folderOf c)
                   (map slice_0_m1 (namesOf Kprefix items)))%list.
Proof.
  intros Hs; induction items as [|[k n] items IH]; intros acc Hall; simpl.
  - now rewrite app_nil_r.
  - destruct k; simpl.
    + rewrite (otherFolder_falsy _ _ Hs).
      destruct (Hall (slice_0_m1 n)) as (md & Hmd); [now left|].
      unfold getFolderMeta at 1; rewrite Hmd; simpl.
      rewrite IH by (intros f Hf; apply Hall; now right).
      unfold folderOf at 2; rewrite Hmd.
      now rewrite <- app_assoc.
    + apply IH, Hall.
Qed.

(** With a slug filter [X] the loop pushes at most one entry per prefix
    item named [X/], and that entry is folder [X]'s. *)
Lemma listFolders_loop_filter (c : Container) (X : string) :
  X <> "" ->
  forall items acc res,
    listFolders_loop c (Some X) items acc = Ok res ->
    (List.length res <=
     List.length acc +
     count_occ string_dec (map slice_0_m1 (namesOf Kprefix items)) X)%nat /\
    (forall e, In e res ->
       In e acc \/
       (getFolderMeta c X = Ok (folder_meta e) /\
        folder_blobs e = listFolderBlobs c X)).
Proof.
  intros HX; apply String.eqb_neq in HX.
  induction items as [|[k n] items IH]; intros acc res H; simpl in H.
  - inversion H; subst; split; [simpl; lia | auto].
  - destruct k; simpl in *.
    + rewrite HX in H; simpl in H.
      destruct (slice_0_m1 n =? X) eqn:E; simpl in H.
      * apply String.eqb_eq in E.
        destruct (getFolderMeta c (slice_0_m1 n)) as [md|] eqn:G;
          simpl in H; [|discriminate].
        apply IH in H as [Hlen Hin].
        rewrite length_app in Hlen; simpl in Hlen.
        destruct (string_dec (slice_0_m1 n) X) as [_|Hn]; [|contradiction].
        unfold namesOf in Hlen |- *.
        split; [lia|].
        intros e He; destruct (Hin e He) as [Ha | Hr]; [|now right].
        apply in_app_or in Ha as [Ha | [<- | []]]; [now left|].
        right; simpl; rewrite <- E; auto.
      * apply String.eqb_neq in E.
        destruct (string_dec (slice_0_m1 n) X) as [Hn|_]; [contradiction|].
        now apply IH.
    + now apply IH.
Qed.

(** C8 (as amended): for a slug filter [X] other than the empty string,
    [listFolders], when it returns, returns at most one entry; the store
    lists a folder [X], and the entry holds the text stored as
    [X/_zwila.md], as it is, with the blobs of folder [X]. *)
Theorem listFolders_slug_filter (c : Container) (X : string)
    (folders : list Folder) :
  X <> "" ->
  listFolders c (Some X) = Ok folders ->
  (List.length folders <= 1)%nat /\
  (forall e, In e folders ->
     In X (folderNames c) /\
     download c (X ++ "/" ++ "_zwila.md") = Some (folder_meta e) /\
     folder_blobs e = listFolderBlobs c X).
Proof.
  intros HX H; unfold listFolders in H.
  apply (listFolders_loop_filter c X HX) in H as [Hlen Hin].
  fold (folderNames c) in Hlen; simpl in Hlen; split.
  - pose proof (proj1 (NoDup_count_occ string_dec (folderNames c))
                      (NoDup_folderNames c) X) as Hc.
    lia.
  - intros e He; destruct (Hin e He) as [[] | [Hm Hb]].
    split; [|split; [|exact Hb]].
    + apply (count_occ_In string_dec).
      destruct folders as [|e0 l]; [destruct He | simpl in Hlen; lia].
    + unfold getFolderMeta in Hm.
      change (X ++ "/" ++ "_zwila.md") with (X ++ "/" ++ metafilename).
      destruct (download c (X ++ "/" ++ metafilename)) as [md|];
        simpl in Hm; [|discriminate].
      now inversion Hm.
Qed.

End ListFolders.

Section ListFoldersCases.
Import Store Zwila JsString.
Local Open Scope Z_scope.

Lemma listFolders_slug_filter_witness :
  (List.length [mkFolder "garbage" []] <= 1)%nat /\
  In "bad"%string (folderNames corruptContainer) /\
  download corruptContainer "bad/_zwila.md" = Some "garbage"%string.
Proof.
  assert (HX : "bad"%string <> ""%string) by discriminate.
  destruct (listFolders_slug_filter corruptContainer "bad"
              [mkFolder "garbage" []] HX eq_refl) as [Hlen Hin].
  split; [exact Hlen|].
  destruct (Hin _ (or_introl eq_refl)) as (H1 & H2 & _).
  split; [exact H1 | exact H2].
Defined.

(** C8 (as stated) fails: an empty slug filters nothing, so two folders
    give two entries; and the metadata of an entry is whatever text lies
    under the folder's name, here a text that names no slug at all. *)
Lemma listFolders_filter_by_name_only :
  listFolders corruptContainer (Some "") =
    Ok [mkFolder "garbage" [];
        mkFolder
          ("+++" ++ NL ++ "slug = 'good'" ++ NL ++
           "description = 'fine'" ++ NL ++
           "expiry = 2021-08-05T00:00:00.123Z" ++ NL ++
           "downloads = 0" ++ NL ++ "+++" ++ NL)%string
          []] /\
  listFolders corruptContainer (Some "bad") = Ok [mkFolder "garbage" []] /\
  Codec.decode "garbage" = Throw (DecodeError "preamble").
Proof. vm_compute; repeat split. Qed.

(** C1 at the input of the expiry test: the folder expired five minutes
    before [sampleNow], and [listFolders] lists it.  [listFolders] reads
    neither the clock nor a second argument, so the same holds for
    [listFolders(slug, true)]. *)
Theorem listFolders_lists_expired_folder :
  JsDate.isoOfTime (sampleNow - 5 * 60 * 1000) = "2021-07-04T23:55:00.123Z" /\
  (sampleNow - 5 * 60 * 1000 <? sampleNow) = true /\
  listFolders expiredContainer (Some "zwila-test-expired") =
    Ok [mkFolder
          (metaText "zwila-test-expired"
             "Test folder used by AVA test runner during development."
             "2021-07-04T23:55:00.123Z"
             (Some "## Your downloads are available")) []].
Proof. vm_compute; repeat split. Qed.

Definition dq : string := String (ascii_of_nat 34) "".

(** The container of [corruptContainer] as zwila.mjs lays it out. *)
Definition legacyCorrupt : Container :=
  upload
    (upload [] "bad/foldermeta.json" "garbage" (JString "application/json"))
    "good/foldermeta.json"
    ("{" ++ dq ++ "foldername" ++ dq ++ ":" ++ dq ++ "good" ++ dq ++ "," ++
     dq ++ "expiry" ++ dq ++ ":" ++ dq ++ "2021-08-05T00:00:00.123Z" ++ dq ++
     "," ++ dq ++ "note" ++ dq ++ ":" ++ dq ++ dq ++ "," ++
     dq ++ "downloads" ++ dq ++ ":0}")
    (JString "application/json").

(** A stand-in for [JSON.parse] that throws on the text [bad]. *)
Definition rejecting (bad : string) (s : string) : option string :=
  if (s =? bad)%string then None else Some s.

(** [legacyCorrupt] with the two folders written in the other order. *)
Definition legacyCorruptLast : Container :=
  upload
    (upload [] "good/foldermeta.json"
       ("{" ++ dq ++ "foldername" ++ dq ++ ":" ++ dq ++ "good" ++ dq ++ "}")
       (JString "application/json"))
    "bad/foldermeta.json" "garbage" (JString "application/json").

(** In zwila.mjs the first folder whose metadata does not parse ends the
    loop, with the error of that [JSON.parse]. *)
Lemma legacy_loop_throws (J : Type) (JSON_parse : string -> option J)
    (c : Container) (f json : string) :
  download c (f ++ "/" ++ Legacy.metafilename) = Some json ->
  JSON_parse json = None ->
  forall items before after acc,
    map slice_0_m1 (namesOf Kprefix items) = (before ++ f :: after)%list ->
    (forall g, In g before ->
       exists j v, download c (g ++ "/" ++ Legacy.metafilename) = Some j /\
                   JSON_parse j = Some v) ->
    Legacy.listFolders_loop J JSON_parse c None items acc
      = Throw (SyntaxError json).
Proof.
  intros Hd Hp; induction items as [|[k n] items IH];
    intros before after acc Hnames Hbefore.
  - destruct before; discriminate.
  - destruct k; [|exact (IH before after acc Hnames Hbefore)].
    change (map slice_0_m1 (namesOf Kprefix (mkItem Kprefix n :: items)))
      with (slice_0_m1 n :: map slice_0_m1 (namesOf Kprefix items))
      in Hnames.
    cbn [Legacy.listFolders_loop kind name otherFolder].
    destruct before as [|g before]; simpl in Hnames;
      inversion Hnames as [[Hn Hrest]].
    + rewrite Hn; unfold Legacy.getFolderMeta; rewrite Hd; simpl.
      rewrite Hp; reflexivity.
    + destruct (Hbefore g (or_introl eq_refl)) as (j & v & Hj & Hv).
      rewrite Hn; unfold Legacy.getFolderMeta; rewrite Hj; simpl.
      rewrite Hv; simpl.
      apply (IH before after); [exact Hrest|].
      intros g' Hg'; apply Hbefore; now right.
Qed.

(** C2 (as amended): [listFolders] of zwila.js does not decode metadata:
    when every folder has a metadata object it returns a listing that
    holds every folder with the text stored for it, whatever that text
    is; [listFolders] of zwila.mjs, when the metadata of a folder does not
    parse and that of every folder listed before it does, throws the
    SyntaxError of that [JSON.parse]. *)
Theorem listFolders_decode_failure (c : Container) :
  ((forall f, In f (folderNames c) ->
      exists md, download c (f ++ "/" ++ metafilename) = Some md) ->
   exists folders,
     listFolders c None = Ok folders /\
     forall f md,
       In f (folderNames c) ->
       download c (f ++ "/" ++ metafilename) = Some md ->
       In (mkFolder md (listFolderBlobs c f)) folders) /\
  (forall (J : Type) (JSON_parse : string -> option J) before f after json,
     folderNames c = (before ++ f :: after)%list ->
     (forall g, In g before ->
        exists j v, download c (g ++ "/" ++ Legacy.metafilename) = Some j /\
                    JSON_parse j = Some v) ->
     download c (f ++ "/" ++ Legacy.metafilename) = Some json ->
     JSON_parse json = None ->
     Legacy.listFolders J JSON_parse c None = Throw (SyntaxError json)).
Proof.
  split.
  - intros Hall; eexists; split.
    + unfold listFolders; apply listFolders_loop_all; [reflexivity|].
      exact Hall.
    + intros f md Hf Hmd; simpl; apply in_map_iff; exists f; split; trivial.
      unfold folderOf; now rewrite Hmd.
  - intros J JSON_parse before f after json Hnames Hbefore Hd Hp.
    exact (legacy_loop_throws J JSON_parse c f json Hd Hp _ before after []
             Hnames Hbefore).
Qed.

Lemma listFolders_decode_failure_witness :
  (exists folders,
     listFolders corruptContainer None = Ok folders /\
     In (mkFolder "garbage" (listFolderBlobs corruptContainer "bad"))
        folders) /\
  Legacy.listFolders string (rejecting "garbage") legacyCorruptLast None
    = Throw (SyntaxError "garbage").
Proof.
  destruct (listFolders_decode_failure corruptContainer) as [Hjs _].
  destruct (listFolders_decode_failure legacyCorruptLast) as [_ Hmjs].
  split.
  - destruct Hjs as (folders & Hl & Hin).
    + change (folderNames corruptContainer) with ["bad"; "good"].
      intros f [<- | [<- | []]]; eexists; reflexivity.
    + exists folders; split; [exact Hl|].
      apply Hin; [left; reflexivity | reflexivity].
  - apply (Hmjs string (rejecting "garbage") ["good"%string] "bad"%string []
             "garbage"%string).
    + reflexivity.
    + intros g [<- | []]; eexists; eexists; split; reflexivity.
    + reflexivity.
    + reflexivity.
Defined.

(** C2 (as stated) fails: the text stored for folder [bad] is no
    metadata record, yet zwila.js lists folder [bad] with it; in
    zwila.mjs the failure to parse it leaves [listFolders] as an
    exception, and folder [good] is not returned. *)
Lemma listFolders_corrupt_folder :
  Codec.decode "garbage" = Throw (DecodeError "preamble") /\
  listFolders corruptContainer None =
    Ok [mkFolder "garbage" [];
        mkFolder (metaText "good" "fine" "2021-08-05T00:00:00.123Z" None)
                 []] /\
  Legacy.listFolders string (rejecting "garbage") legacyCorrupt None
    = Throw (SyntaxError "garbage") /\
  Legacy.listFolders string (rejecting "garbage") legacyCorruptLast None
    = Throw (SyntaxError "garbage").
Proof. vm_compute; repeat split. Qed.

End ListFoldersCases.

(* ================================================================== *)
(** ** The metadata codec *)

Section CodecFacts.
Import Codec JsString.
Local Open Scope Z_scope.

Lemma isDigit_not (x c : ascii) :
  isDigit x = false -> isDigit c = true -> Ascii.eqb c x = false.
Proof.
  intros Hx Hc; destruct (Ascii.eqb c x) eqn:E; [|reflexivity].
  apply Ascii.eqb_eq in E; subst; congruence.
Qed.

(** A character that is no digit and does not occur in the pattern does
    not occur in the text the pattern matches. *)
Lemma matches_no_char (x : ascii) (pat s : string) :
  isDigit x = false ->
  contains_char x pat = false ->
  JsDate.matches pat s = true ->
  contains_char x s = false.
Proof.
  intros Hx; revert s; induction pat as [|p pat IH]; intros [|c s] Hp Hm;
    simpl in *; try discriminate; [reflexivity|].
  apply orb_false_iff in Hp as [Hpx Hpat].
  apply andb_true_iff in Hm as [Hc Hm].
  rewrite (IH _ Hpat Hm), orb_false_r.
  destruct (Ascii.eqb p "d").
  - now apply isDigit_not.
  - apply Ascii.eqb_eq in Hc; now subst.
Qed.

Lemma isTimestamp_no_nl (e : string) :
  JsDate.isTimestamp e = true -> contains_char nl e = false.
Proof.
  unfold JsDate.isTimestamp; intros H.
  apply orb_true_iff in H as [H | H]; [apply orb_true_iff in H as [H | H]|];
    (eapply matches_no_char; [| | exact H]; reflexivity).
Qed.

Local Arguments JsString.strip_prefix : simpl nomatch.
Local Arguments JsString.take_until : simpl nomatch.
Local Arguments JsString.strip_last : simpl nomatch.
Local Arguments rbind : simpl nomatch.
Local Arguments of_option : simpl nomatch.

(** The decoder reads back what the template of [createFolder] wrote. *)
Lemma decode_metaText (s d e : string) (m : option string) :
  contains_char "'" s = false ->
  contains_char "'" d = false ->
  JsDate.isTimestamp e = true ->
  m <> Some "" ->
  decode (Zwila.metaText s d e m) = Ok (mkRecord s d e 0 m).
Proof.
  intros Hs Hd He Hm.
  pose proof (isTimestamp_no_nl e He) as Hnl.
  unfold decode, Zwila.metaText, expect, until; cbn.
  rewrite (take_until_append _ _ _ Hs); cbn.
  rewrite (take_until_append _ _ _ Hd); cbn.
  rewrite (take_until_append _ _ _ Hnl); cbn.
  rewrite He; cbn.
  change (isDigit "0") with true; cbn.
  destruct m as [m0|]; [|reflexivity].
  destruct (m0 =? "")%string eqn:E0.
  - apply String.eqb_eq in E0; subst; now destruct Hm.
  - cbn; change (m0 ++ NL) with (m0 ++ String "010"%char "").
    rewrite strip_last_append; reflexivity.
Qed.

(** C4 (as amended): for a record whose slug is not empty, whose slug
    and description hold no single quote, whose expiry is the ISO text of
    an instant a Date can hold, whose download count is 0 and whose
    message is absent or not empty, [createFolder] called with the
    record's fields writes the record's encoding, [getFolderMeta] reads
    that text back, and the decoder turns it into the record again. *)
Theorem decode_encode (account container : string)
    (Date_parse : string -> option Z) (now : Z) (rnd : nat -> Z)
    (c : Store.Container) (r : FolderMetadataRecord) (t : Z) :
  slug r <> ""%string ->
  contains_char "'" (slug r) = false ->
  contains_char "'" (description r) = false ->
  expiry r = JsDate.isoOfTime t ->
  Z.abs t <= JsDate.maxTime ->
  downloads r = 0 ->
  message r <> Some ""%string ->
  exists c' res,
    Zwila.createFolder account container Date_parse now rnd
      (Some (slug r)) (Some (description r))
      (Some (Zwila.ExpiryDate (Some t))) (message r) c = (c', Ok res) /\
    Zwila.meta res = encode rnd r /\
    Zwila.getFolderMeta c' (slug r) = Ok (Zwila.meta res) /\
    decode (Zwila.meta res) = Ok r.
Proof.
  destruct r as [s d e n m]; cbn [slug description expiry downloads message].
  intros Hne Hs Hd -> Ht -> Hm.
  assert (E : Zwila.normalizeExpiry Date_parse now
                (Some (Zwila.ExpiryDate (Some t))) = Ok (JsDate.isoOfTime t)).
  { unfold Zwila.normalizeExpiry, Zwila.newDate, JsDate.TimeClip; simpl.
    apply Z.leb_le in Ht; now rewrite Ht. }
  rewrite (createFolder_Ok _ _ _ _ _ _ _ _ _ _ _ E); unfold created.
  assert (E1 : Zwila.orDefault (Some s) (Nanoid.nanoid rnd) = s).
  { simpl; apply String.eqb_neq in Hne; now rewrite Hne. }
  assert (E2 : Zwila.orDefault (Some d) "" = d).
  { simpl; destruct (d =? "")%string eqn:E0; [|reflexivity].
    apply String.eqb_eq in E0; now subst. }
  unfold encode; cbn [slug description expiry downloads message].
  rewrite E1, E2; eexists; eexists; split; [reflexivity|].
  cbn [Zwila.meta]; split; [reflexivity|]; split.
  - unfold Zwila.getFolderMeta; now rewrite download_upload_same.
  - apply decode_metaText; trivial; apply isTimestamp_isoOfTime.
Qed.

Definition sampleRecord : FolderMetadataRecord :=
  mkRecord "zwila-test"
    "Test folder used by AVA test runner during development."
    "2021-07-06T00:00:00.123Z" 0
    (Some "## Your downloads are available").

Lemma decode_encode_witness :
  exists c' res,
    sampleCreate (Some "zwila-test")
      (Some "Test folder used by AVA test runner during development.")
      (Some (Zwila.ExpiryDate (Some (sampleNow + 86400000))))
      (Some "## Your downloads are available") [] = (c', Ok res) /\
    Zwila.meta res = encode sampleRnd sampleRecord /\
    Zwila.getFolderMeta c' "zwila-test" = Ok (Zwila.meta res) /\
    decode (Zwila.meta res) = Ok sampleRecord.
Proof.
  apply (decode_encode "acct" "cont" noDateParse sampleNow sampleRnd []
           sampleRecord (sampleNow + 86400000));
    try reflexivity; try discriminate.
Defined.

(** C4 (as stated) fails: the template writes [downloads = 0] whatever
    the record holds, and leaves out an empty message like an absent
    one; a description with a single quote is written between single
    quotes as it is; and for an empty slug a generated one is written. *)
Lemma decode_encode_fails :
  decode (encode sampleRnd
            (mkRecord "a" "d" "2021-07-06T00:00:00.123Z" 5 None))
    = Ok (mkRecord "a" "d" "2021-07-06T00:00:00.123Z" 0 None) /\
  decode (encode sampleRnd
            (mkRecord "a" "d" "2021-07-06T00:00:00.123Z" 0 (Some "")))
    = Ok (mkRecord "a" "d" "2021-07-06T00:00:00.123Z" 0 None) /\
  decode (encode sampleRnd
            (mkRecord "a" "it's" "2021-07-06T00:00:00.123Z" 0 None))
    = Throw (DecodeError "description") /\
  decode (encode sampleRnd
            (mkRecord "" "d" "2021-07-06T00:00:00.123Z" 0 None))
    = Ok (mkRecord "OnYy5bTSsVqPG-DcAj3Ld" "d" "2021-07-06T00:00:00.123Z"
            0 None).
Proof. vm_compute; repeat split. Qed.

(** Whatever the decoder: two records with one encoding. *)
Example encode_collision :
  encode sampleRnd
    (mkRecord ("a'" ++ NL ++ "description = 'b") "c"
       "2021-07-06T00:00:00.123Z" 0 None)
  = encode sampleRnd
      (mkRecord "a" ("b'" ++ NL ++ "description = 'c")
         "2021-07-06T00:00:00.123Z" 0 None).
Proof. vm_compute; reflexivity. Qed.

(** What [createFolder] writes decodes to the record it was called for,
    quotes in slug and description apart. *)
Corollary decode_created (slug description : string) (t : Z)
    (message : option string) :
  contains_char "'" slug = false ->
  contains_char "'" description = false ->
  message <> Some "" ->
  decode (Zwila.metaText slug description (JsDate.isoOfTime t) message)
    = Ok (mkRecord slug description (JsDate.isoOfTime t) 0 message).
Proof.
  intros Hs Hd Hm; apply decode_metaText; trivial.
  apply isTimestamp_isoOfTime.
Qed.

End CodecFacts.

(* ================================================================== *)
(** * Further properties of the library *)

(** ** More on the container *)

Section ContainerNames.
Import Store JsString.

(** The names held by a container, in store order. *)
Definition blobNames (c : Container) : list string := map Store.blobName c.

Lemma download_None (c : Container) (n : string) :
  download c n = None <-> ~ In (canon n) (blobNames c).
Proof.
  unfold download; generalize (canon n) as k; intros k.
  induction c as [|b c IH]; simpl; [tauto|].
  destruct (Store.blobName b =? k) eqn:E.
  - apply String.eqb_eq in E; split; [discriminate | tauto].
  - apply String.eqb_neq in E; rewrite IH; tauto.
Qed.

Lemma download_Some_In (c : Container) (n body : string) :
  download c n = Some body -> In (canon n) (blobNames c).
Proof.
  intros H;
    destruct (in_dec string_dec (canon n) (blobNames c)) as [Hin | Hout];
    [exact Hin|].
  apply download_None in Hout; congruence.
Qed.

Lemma blobNames_upload_old (c : Container) (n body : string) (ct : JsVal) :
  In (canon n) (blobNames c) -> blobNames (upload c n body ct) = blobNames c.
Proof.
  unfold upload; generalize (canon n) as k; intros k.
  unfold blobNames; induction c as [|b c IH]; simpl; [contradiction|].
  destruct (Store.blobName b =? k) eqn:E; simpl.
  - apply String.eqb_eq in E; now rewrite E.
  - apply String.eqb_neq in E; intros [H | H]; [contradiction|].
    now rewrite IH.
Qed.

Lemma blobNames_upload_new (c : Container) (n body : string) (ct : JsVal) :
  ~ In (canon n) (blobNames c) ->
  blobNames (upload c n body ct) = (blobNames c ++ [canon n])%list.
Proof.
  unfold upload; generalize (canon n) as k; intros k.
  unfold blobNames; induction c as [|b c IH]; simpl; [reflexivity|].
  intros H; destruct (Store.blobName b =? k) eqn:E; simpl.
  - apply String.eqb_eq in E; tauto.
  - rewrite IH; tauto.
Qed.

Lemma NoDup_blobNames_upload (c : Container) (n body : string) (ct : JsVal) :
  NoDup (blobNames c) -> NoDup (blobNames (upload c n body ct)).
Proof.
  intros H;
    destruct (in_dec string_dec (canon n) (blobNames c)) as [Hin | Hout].
  - now rewrite blobNames_upload_old.
  - rewrite blobNames_upload_new by exact Hout.
    apply NoDup_app; [exact H | repeat constructor; tauto |].
    intros x Hx [<- | []]; contradiction.
Qed.

(** After a write the container holds the blob, under its stored name. *)
Lemma In_upload (c : Container) (n body : string) (ct : JsVal) :
  In (mkBlob (canon n) body ct) (upload c n body ct).
Proof.
  unfold upload; generalize (canon n) as k; intros k.
  induction c as [|b c IH]; simpl; [now left|].
  destruct (Store.blobName b =? k); simpl; auto.
Qed.

(** The listing reads the names only. *)
Lemma entries_blobNames (pre : string) (c c' : Container) :
  blobNames c = blobNames c' -> entries pre c = entries pre c'.
Proof.
  revert c'; induction c as [|b c IH]; intros [|b' c'] H; simpl in *;
    try discriminate; [reflexivity|].
  inversion H as [[Hb Hc]].
  unfold entry; rewrite Hb, (IH _ Hc); reflexivity.
Qed.

Lemma listBlobsByHierarchy_blobNames (pre : string) (c c' : Container) :
  blobNames c = blobNames c' ->
  listBlobsByHierarchy c pre = listBlobsByHierarchy c' pre.
Proof.
  intros H; unfold listBlobsByHierarchy.
  now rewrite (entries_blobNames pre c c' H).
Qed.

Lemma entries_app (pre : string) (c c' : Container) :
  entries pre (c ++ c')%list = (entries pre c ++ entries pre c')%list.
Proof.
  induction c as [|b c IH]; simpl; [reflexivity|].
  destruct (entry pre b); simpl; now rewrite IH.
Qed.

End ContainerNames.

(** ** createFolder and uploadFile as writes *)

Section Writes.
Import Store Zwila.
Local Open Scope Z_scope.

Variables account container : string.
Variable Date_parse : string -> option Z.

Local Abbreviation createFolder := (Zwila.createFolder account container Date_parse).
Local Abbreviation uploadFile := (Zwila.uploadFile account container).
Local Abbreviation blobUrl := (Zwila.blobUrl account container).

(** A successful [createFolder] is one upload of the frontmatter text. *)
Lemma createFolder_inv now rnd slug description expiry message c c' res :
  createFolder now rnd slug description expiry message c = (c', Ok res) ->
  exists iso,
    Zwila.normalizeExpiry Date_parse now expiry = Ok iso /\
    c' = upload c (orDefault slug (Nanoid.nanoid rnd) ++ "/" ++ metafilename)
           (meta res) (JString "text/markdown; charset=UTF-8") /\
    res = mkCreated
            (metaText (orDefault slug (Nanoid.nanoid rnd))
               (orDefault description "") iso message)
            (blobUrl (orDefault slug (Nanoid.nanoid rnd) ++ "/" ++ metafilename)).
Proof.
  intros H.
  destruct (Zwila.normalizeExpiry Date_parse now expiry) as [iso|e] eqn:E.
  - rewrite (createFolder_Ok _ _ _ _ _ _ _ _ _ _ _ E) in H.
    unfold created in H; inversion H; subst; exists iso; auto.
  - rewrite (createFolder_Throw _ _ _ _ _ _ _ _ _ _ _ E) in H; discriminate.
Qed.

(** X1: what [getFolderMeta] reads back after a successful [createFolder]
    is the text [createFolder] returned as [meta], and the returned [url] is
    the address of the folder's metadata object. *)
Theorem createFolder_then_getFolderMeta
    now rnd slug description expiry message c c' res :
  createFolder now rnd slug description expiry message c = (c', Ok res) ->
  getFolderMeta c' (orDefault slug (Nanoid.nanoid rnd)) = Ok (meta res) /\
  url res = blobUrl (orDefault slug (Nanoid.nanoid rnd) ++ "/" ++ metafilename).
Proof.
  intros H; apply createFolder_inv in H as (iso & _ & -> & Hres).
  split.
  - unfold getFolderMeta; now rewrite download_upload_same.
  - now rewrite Hres.
Qed.

(** X2: [createFolder] makes no uniqueness check.  On a slug that already
    has a metadata object it succeeds all the same, replaces that object's
    text, and leaves the set of blobs, hence every listing, as it was. *)
Theorem createFolder_overwrites
    now rnd slug description expiry message c c' res old :
  download c (orDefault slug (Nanoid.nanoid rnd) ++ "/" ++ metafilename)
    = Some old ->
  createFolder now rnd slug description expiry message c = (c', Ok res) ->
  download c' (orDefault slug (Nanoid.nanoid rnd) ++ "/" ++ metafilename)
    = Some (meta res) /\
  blobNames c' = blobNames c /\
  (forall pre, listBlobsByHierarchy c' pre = listBlobsByHierarchy c pre) /\
  (forall slug', listFolderBlobs c' slug' = listFolderBlobs c slug').
Proof.
  intros Hold H; apply createFolder_inv in H as (iso & _ & -> & _).
  assert (Hn : blobNames
                 (upload c (orDefault slug (Nanoid.nanoid rnd) ++ "/" ++ metafilename)
                    (meta res) (JString "text/markdown; charset=UTF-8"))
               = blobNames c)
    by (apply blobNames_upload_old; eapply download_Some_In; exact Hold).
  split; [apply download_upload_same|].
  split; [exact Hn|].
  split.
  - intros pre; now apply listBlobsByHierarchy_blobNames.
  - intros slug'; unfold listFolderBlobs.
    now rewrite (listBlobsByHierarchy_blobNames _ _ _ Hn).
Qed.

(** X3: [createFolder] and [uploadFile] each write at most one blob:
    what is stored under another name reads as before, no name is lost,
    the container grows by at most one blob, and a call that throws
    leaves the container as it was.  [uploadFile] throws, with nothing
    written, when the file cannot be read and when the inferred content
    type is a member inherited from [Object.prototype]; when it returns,
    it returns the address of [slug/filename], where the body of the file
    is then stored. *)
Theorem writes_touch_one_blob :
  (forall now rnd slug description expiry message c c' r,
     createFolder now rnd slug description expiry message c = (c', r) ->
     (forall n,
        canon n <>
          canon (orDefault slug (Nanoid.nanoid rnd) ++ "/" ++ metafilename) ->
        download c' n = download c n) /\
     (forall n, In n (blobNames c) -> In n (blobNames c')) /\
     (List.length c <= List.length c' <= List.length c + 1)%nat /\
     (forall e, r = Throw e -> c' = c)) /\
  (forall file isBinary sourcepath slug filename c c' r,
     uploadFile file isBinary sourcepath slug filename c = (c', r) ->
     (forall n, canon n <> canon (slug ++ "/" ++ filename) ->
                download c' n = download c n) /\
     (forall n, In n (blobNames c) -> In n (blobNames c')) /\
     (List.length c <= List.length c' <= List.length c + 1)%nat /\
     (forall e, r = Throw e -> c' = c) /\
     (forall e, file = Unreadable e -> r = Throw e) /\
     (forall body filetype key,
        file = Readable body filetype ->
        Util._getContentTypeFromFile Util.textMimeTypes filetype isBinary
          sourcepath = JInherited key ->
        exists e, r = Throw e) /\
     (forall body filetype,
        file = Readable body filetype ->
        (forall key,
           Util._getContentTypeFromFile Util.textMimeTypes filetype isBinary
             sourcepath <> JInherited key) ->
        r = Ok (blobUrl (slug ++ "/" ++ filename)) /\
        download c' (slug ++ "/" ++ filename) = Some body)).
Proof.
  assert (Hup : forall c n body ct,
            (forall m, In m (blobNames c) ->
                       In m (blobNames (upload c n body ct))) /\
            (List.length c <= List.length (upload c n body ct)
             <= List.length c + 1)%nat).
  { intros c n body ct.
    destruct (in_dec string_dec (canon n) (blobNames c)) as [Hin | Hout].
    - pose proof (blobNames_upload_old c n body ct Hin) as E.
      split; [now rewrite E|].
      apply (f_equal (@List.length string)) in E.
      unfold blobNames in E; rewrite !length_map in E; lia.
    - pose proof (blobNames_upload_new c n body ct Hout) as E.
      split; [intros m Hm; rewrite E; apply in_or_app; now left|].
      apply (f_equal (@List.length string)) in E.
      unfold blobNames in E; rewrite length_app, !length_map in E.
      simpl in E; lia. }
  split.
  - intros now rnd slug description expiry message c c' r H.
    destruct (Zwila.normalizeExpiry Date_parse now expiry) as [iso|e] eqn:E.
    + rewrite (createFolder_Ok _ _ _ _ _ _ _ _ _ _ _ E) in H.
      unfold created in H; inversion H; subst; clear H.
      split; [|split; [apply Hup | split; [apply Hup | discriminate]]].
      intros n Hn; apply download_upload_other, not_eq_sym, Hn.
    + rewrite (createFolder_Throw _ _ _ _ _ _ _ _ _ _ _ E) in H.
      inversion H; subst; repeat split; auto; lia.
  - intros file isBinary sourcepath slug filename c c' r H.
    unfold Zwila.uploadFile in H.
    destruct file as [e0 | body filetype].
    + unfold lift in H; inversion H; subst.
      repeat split; auto; try lia; try discriminate.
      intros e E; now inversion E.
    + destruct (Util._getContentTypeFromFile Util.textMimeTypes filetype
                  isBinary sourcepath) as [mime | | key] eqn:T;
        unfold bind, uploadM, ret, lift in H; inversion H; subst; clear H.
      * split; [intros n Hn; apply download_upload_other, not_eq_sym, Hn|].
        split; [apply Hup|]; split; [apply Hup|].
        split; [discriminate|]; split; [discriminate|]; split.
        -- intros b0 f0 k E T'; inversion E; subst; congruence.
        -- intros b0 f0 E _; inversion E; subst; split; [reflexivity|].
           apply download_upload_same.
      * split; [intros n Hn; apply download_upload_other, not_eq_sym, Hn|].
        split; [apply Hup|]; split; [apply Hup|].
        split; [discriminate|]; split; [discriminate|]; split.
        -- intros b0 f0 k E T'; inversion E; subst; congruence.
        -- intros b0 f0 E _; inversion E; subst; split; [reflexivity|].
           apply download_upload_same.
      * split; [reflexivity|]; split; [auto|]; split; [lia|].
        split; [reflexivity|]; split; [discriminate|]; split.
        -- intros b0 f0 k _ _; eexists; reflexivity.
        -- intros b0 f0 E Hk; inversion E; subst.
           now destruct (Hk key).
Qed.

End Writes.

Lemma createFolder_then_getFolderMeta_witness :
  Zwila.getFolderMeta expiredContainer "zwila-test-expired" =
    Ok (Zwila.metaText "zwila-test-expired"
          "Test folder used by AVA test runner during development."
          "2021-07-04T23:55:00.123Z"
          (Some "## Your downloads are available")).
Proof.
  refine (proj1 (createFolder_then_getFolderMeta "acct" "cont" noDateParse
                   sampleNow sampleRnd (Some "zwila-test-expired")
                   (Some "Test folder used by AVA test runner during development.")
                   (Some (Zwila.ExpiryDate (Some (sampleNow - 5 * 60 * 1000)%Z)))
                   (Some "## Your downloads are available")
                   [] expiredContainer
                   (Zwila.mkCreated
                      (Zwila.metaText "zwila-test-expired"
                         "Test folder used by AVA test runner during development."
                         "2021-07-04T23:55:00.123Z"
                         (Some "## Your downloads are available"))
                      "https://acct.blob.core.windows.net/cont/zwila-test-expired/_zwila.md")
                   _)).
  reflexivity.
Defined.

Lemma createFolder_overwrites_witness :
  Store.download
    (run (sampleCreate (Some "a") (Some "renamed") None None) sampleFolder)
    "a/_zwila.md"
  = Some (Zwila.metaText "a" "renamed" "2021-08-05T00:00:00.123Z" None) /\
  blobNames
    (run (sampleCreate (Some "a") (Some "renamed") None None) sampleFolder)
  = blobNames sampleFolder.
Proof.
  destruct (createFolder_overwrites "acct" "cont" noDateParse
              sampleNow sampleRnd (Some "a") (Some "renamed") None None
              sampleFolder
              (run (sampleCreate (Some "a") (Some "renamed") None None)
                   sampleFolder)
              (Zwila.mkCreated
                 (Zwila.metaText "a" "renamed" "2021-08-05T00:00:00.123Z" None)
                 "https://acct.blob.core.windows.net/cont/a/_zwila.md")
              (Zwila.metaText "a" "pictures" "2021-08-05T00:00:00.123Z" None)
              eq_refl eq_refl) as (H1 & H2 & _).
  split; [exact H1 | exact H2].
Defined.

Lemma writes_touch_one_blob_witness :
  Store.download
    (run (sampleCreate (Some "b") None None None) sampleFolder) "a/rhino.png"
  = Store.download sampleFolder "a/rhino.png" /\
  Store.download
    (run (sampleUpload None false "hello" "/tmp/h.txt" "b" "h.txt")
         sampleFolder) "b/h.txt"
  = Some "hello" /\
  run (sampleUpload None false "hello" "/tmp/notes.constructor"
         "b" "notes.constructor") sampleFolder
  = sampleFolder.
Proof.
  destruct (writes_touch_one_blob "acct" "cont" noDateParse) as [Hc Hu].
  split; [|split].
  - refine (proj1 (Hc sampleNow sampleRnd (Some "b") None None None
                      sampleFolder _ _ eq_refl) "a/rhino.png" _).
    discriminate.
  - destruct (Hu (Zwila.Readable "hello" None) false "/tmp/h.txt" "b" "h.txt"
                 sampleFolder _ _ eq_refl) as (_ & _ & _ & _ & _ & _ & Hok).
    refine (proj2 (Hok _ _ eq_refl _)); discriminate.
  - destruct (Hu (Zwila.Readable "hello" None) false "/tmp/notes.constructor"
                 "b" "notes.constructor" sampleFolder _ _ eq_refl)
      as (_ & _ & _ & Hthrow & _).
    exact (Hthrow _ eq_refl).
Defined.

(** ** More on listFolders *)

Section ListFoldersMore.
Import Store Zwila JsString.

Lemma getFolderMeta_Throw (c : Container) (f : string) (e : JsError) :
  getFolderMeta c f = Throw e ->
  e = RestError "BlobNotFound" /\
  download c (f ++ "/" ++ metafilename) = None.
Proof.
  unfold getFolderMeta.
  destruct (download c (f ++ "/" ++ metafilename)); simpl; intros H;
    inversion H; auto.
Qed.

Lemma listFolders_loop_app (c : Container) (slug : option string)
    (i1 i2 : list Item) (acc : list Folder) :
  listFolders_loop c slug (i1 ++ i2)%list acc =
  rbind (listFolders_loop c slug i1 acc) (listFolders_loop c slug i2).
Proof.
  revert acc; induction i1 as [|[k n] i1 IH]; intros acc; simpl;
    [reflexivity|].
  destruct k; simpl; [|apply IH].
  destruct (otherFolder slug (slice_0_m1 n)); [apply IH|].
  destruct (getFolderMeta c (slice_0_m1 n)); simpl; [apply IH | reflexivity].
Qed.

(** Items of other folders are passed over without a read. *)
Lemma listFolders_loop_skip (c : Container) (X : string) :
  X <> "" ->
  forall items acc,
    ~ In X (map slice_0_m1 (namesOf Kprefix items)) ->
    listFolders_loop c (Some X) items acc = Ok acc.
Proof.
  intros HX; apply String.eqb_neq in HX.
  induction items as [|[k n] items IH]; intros acc Hout; simpl;
    [reflexivity|].
  destruct k; simpl in *; [|now apply IH].
  rewrite HX; simpl.
  destruct (slice_0_m1 n =? X) eqn:E.
  - apply String.eqb_eq in E; tauto.
  - simpl; apply IH; tauto.
Qed.

(** Without a filter the first folder that has no metadata object ends the
    loop. *)
Lemma listFolders_loop_missing (c : Container) (slug : option string)
    (f : string) :
  truthy slug = false ->
  download c (f ++ "/" ++ metafilename) = None ->
  forall items acc,
    In f (map slice_0_m1 (namesOf Kprefix items)) ->
    listFolders_loop c slug items acc = Throw (RestError "BlobNotFound").
Proof.
  intros Hs Hd; induction items as [|[k n] items IH]; intros acc Hin;
    simpl in *; [contradiction|].
  destruct k; simpl in *; [|now apply IH].
  rewrite (otherFolder_falsy _ _ Hs).
  destruct (getFolderMeta c (slice_0_m1 n)) as [md|e] eqn:G; simpl.
  - destruct Hin as [<- | Hin]; [|now apply IH].
    unfold getFolderMeta in G; simpl in G, Hd; rewrite Hd in G; discriminate.
  - now apply getFolderMeta_Throw in G as [-> _].
Qed.

Lemma listFolders_loop_Ok_all (c : Container) (slug : option string) :
  truthy slug = false ->
  forall items acc res,
    listFolders_loop c slug items acc = Ok res ->
    forall f, In f (map slice_0_m1 (namesOf Kprefix items)) ->
              exists md, download c (f ++ "/" ++ metafilename) = Some md.
Proof.
  intros Hs items acc res H f Hf.
  destruct (download c (f ++ "/" ++ metafilename)) as [md|] eqn:D;
    [now exists md|].
  rewrite (listFolders_loop_missing c slug f Hs D items acc Hf) in H.
  discriminate.
Qed.

(** A blob under [s/] makes [s] a folder. *)
Lemma In_folderNames (c : Container) (b : Blob) (s rest : string) :
  In b c ->
  Store.blobName b = s ++ "/" ++ rest ->
  contains_char "/" s = false ->
  In s (folderNames c).
Proof.
  intros Hb Hn Hs; unfold folderNames; apply in_map_iff.
  exists (s ++ "/"); split; [apply slice_0_m1_append|].
  apply In_namesOf, In_listBlobsByHierarchy, In_entries.
  exists b; split; [exact Hb|].
  unfold entry; rewrite Hn; simpl.
  now rewrite (take_until_append "/" s rest Hs).
Qed.

(** X4: [listFolders] without a slug filter fails as a whole, with the
    store's BlobNotFound, as soon as one folder of the container has no
    metadata object. *)
Theorem listFolders_missing_metadata (c : Container)
    (slug : option string) (f : string) :
  truthy slug = false ->
  In f (folderNames c) ->
  download c (f ++ "/" ++ metafilename) = None ->
  listFolders c slug = Throw (RestError "BlobNotFound").
Proof.
  intros Hs Hf Hd; unfold listFolders.
  now apply (listFolders_loop_missing c slug f Hs Hd).
Qed.

(** X5: [listFolders] without a slug filter succeeds exactly when every
    folder has a metadata object, and then returns one entry per folder, in
    the order of the store's prefixes: the text of the folder's metadata
    object and the folder's blobs. *)
Theorem listFolders_all (c : Container) (slug : option string)
    (folders : list Folder) :
  truthy slug = false ->
  (listFolders c slug = Ok folders <->
   (forall f, In f (folderNames c) ->
              exists md, download c (f ++ "/" ++ metafilename) = Some md) /\
   folders = map (folderOf c) (folderNames c)).
Proof.
  intros Hs; unfold listFolders; split.
  - intros H.
    pose proof (listFolders_loop_Ok_all c slug Hs _ _ _ H) as Hall.
    split; [exact Hall|].
    rewrite (listFolders_loop_all c slug Hs _ [] Hall) in H.
    now inversion H.
  - intros [Hall ->]; now rewrite (listFolders_loop_all c slug Hs _ [] Hall).
Qed.

(** X6: a slug filter that names no folder of the container gives the
    empty list, not an error, whatever the state of the other folders. *)
Theorem listFolders_unknown_slug (c : Container) (X : string) :
  X <> "" ->
  ~ In X (folderNames c) ->
  listFolders c (Some X) = Ok [].
Proof.
  intros HX Hout; unfold listFolders.
  now apply listFolders_loop_skip.
Qed.

Lemma listFolders_filter_in (c : Container) (X : string) :
  X <> "" ->
  In X (folderNames c) ->
  listFolders c (Some X) =
  match download c (X ++ "/" ++ metafilename) with
  | Some md => Ok [mkFolder md (listFolderBlobs c X)]
  | None => Throw (RestError "BlobNotFound")
  end.
Proof.
  intros HX Hin; unfold listFolders.
  set (items := listBlobsByHierarchy c "").
  assert (Hnd : NoDup (map slice_0_m1 (namesOf Kprefix items)))
    by apply NoDup_folderNames.
  fold (folderNames c) in Hin; unfold folderNames in Hin; fold items in Hin.
  clearbody items.
  induction items as [|[k n] items IH]; simpl in *; [contradiction|].
  destruct k; simpl in *; [|now apply IH].
  apply String.eqb_neq in HX; rewrite HX; simpl.
  apply String.eqb_neq in HX.
  inversion Hnd as [|x l Hx Hl]; subst.
  destruct (slice_0_m1 n =? X) eqn:E; simpl.
  - apply String.eqb_eq in E; rewrite E in *.
    unfold getFolderMeta; simpl.
    destruct (download c (X ++ String "/" metafilename)) as [md|]; simpl;
      [|reflexivity].
    now apply listFolders_loop_skip.
  - apply String.eqb_neq in E.
    destruct Hin as [Hin | Hin]; [contradiction|].
    now apply IH.
Qed.

(** X7: a slug filter that names a folder gives exactly that folder's
    entry when the folder has a metadata object, and the store's
    BlobNotFound when it has none; the other folders are not read. *)
Theorem listFolders_known_slug (c : Container) (X : string) :
  X <> "" ->
  In X (folderNames c) ->
  listFolders c (Some X) =
  match download c (X ++ "/" ++ metafilename) with
  | Some md => Ok [mkFolder md (listFolderBlobs c X)]
  | None => Throw (RestError "BlobNotFound")
  end.
Proof. exact (listFolders_filter_in c X). Qed.

End ListFoldersMore.

Section ListFoldersMoreCases.
Import Store Zwila JsString.

(** [sampleFolder] after an upload into folder [c], which was never
    created. *)
Definition orphanContainer : Container :=
  run (sampleUpload None false "hello" "/tmp/h.txt" "c" "h.txt") sampleFolder.

Lemma listFolders_missing_metadata_witness :
  listFolders orphanContainer None = Throw (RestError "BlobNotFound").
Proof.
  apply (listFolders_missing_metadata orphanContainer None "c").
  - reflexivity.
  - vm_compute; auto.
  - reflexivity.
Defined.

Lemma listFolders_all_witness :
  listFolders corruptContainer (Some "") =
    Ok [mkFolder "garbage" [];
        mkFolder (metaText "good" "fine" "2021-08-05T00:00:00.123Z" None) []].
Proof.
  apply (proj2 (listFolders_all corruptContainer (Some "") _ eq_refl)).
  split; [|reflexivity].
  change (folderNames corruptContainer) with ["bad"; "good"].
  intros f [<- | [<- | []]]; eexists; reflexivity.
Defined.

Lemma listFolders_unknown_slug_witness :
  listFolders orphanContainer (Some "nope") = Ok [].
Proof.
  apply (listFolders_unknown_slug orphanContainer "nope").
  - discriminate.
  - vm_compute; intros [H | [H | []]]; discriminate.
Defined.

Lemma listFolders_known_slug_witness :
  listFolders orphanContainer (Some "a") =
    Ok [mkFolder (metaText "a" "pictures" "2021-08-05T00:00:00.123Z" None)
                 [mkItem Kblob "a/rhino.png"]] /\
  listFolders orphanContainer (Some "c") = Throw (RestError "BlobNotFound").
Proof.
  split.
  - refine (listFolders_known_slug orphanContainer "a" _ _).
    + discriminate.
    + vm_compute; auto.
  - refine (listFolders_known_slug orphanContainer "c" _ _).
    + discriminate.
    + vm_compute; auto.
Defined.

End ListFoldersMoreCases.

(** ** Folders as the API makes them *)

Section FolderLifecycle.
Import Store Zwila JsString.
Local Open Scope Z_scope.

Variables account container : string.
Variable Date_parse : string -> option Z.

Local Abbreviation createFolder := (Zwila.createFolder account container Date_parse).
Local Abbreviation uploadFile := (Zwila.uploadFile account container).

Lemma append_cancel_l (a x y : string) : a ++ x = a ++ y -> x = y.
Proof.
  induction a as [|c a IH]; simpl; intros H; [exact H|].
  inversion H; now apply IH.
Qed.

Lemma append_not_suffix (b t : string) (x : ascii) : b ++ String x t <> t.
Proof.
  intros H; apply (f_equal String.length) in H.
  rewrite length_append_s in H; simpl in H; lia.
Qed.

Lemma urlSafe_no_slash (s : string) :
  Nanoid.all_chars Nanoid.urlSafe s = true -> contains_char "/" s = false.
Proof.
  induction s as [|a s IH]; simpl; [reflexivity|].
  intros H; apply andb_true_iff in H as [Ha Hs].
  rewrite (IH Hs), orb_false_r.
  destruct (Ascii.eqb a "/") eqn:E; [|reflexivity].
  apply Ascii.eqb_eq in E; subst; discriminate.
Qed.

Lemma urlSafe_no_backslash (s : string) :
  Nanoid.all_chars Nanoid.urlSafe s = true -> contains_char "\" s = false.
Proof.
  induction s as [|a s IH]; simpl; [reflexivity|].
  intros H; apply andb_true_iff in H as [Ha Hs].
  rewrite (IH Hs), orb_false_r.
  destruct (Ascii.eqb a "\") eqn:E; [|reflexivity].
  apply Ascii.eqb_eq in E; subst; discriminate.
Qed.

(** A path under a folder name without backslash is stored under that
    folder name. *)
Lemma canon_path (s rest : string) :
  contains_char "\" s = false ->
  canon (s ++ "/" ++ rest) = s ++ "/" ++ canon rest.
Proof. intros H; now rewrite !canon_append, (canon_id s H). Qed.

(** No other name is stored where a folder's metadata object is. *)
Lemma canon_metafile (slug filename : string) :
  contains_char "\" slug = false ->
  canon (slug ++ "/" ++ filename) = canon (slug ++ "/" ++ metafilename) ->
  filename = metafilename.
Proof.
  intros Hs E; rewrite !canon_path in E by exact Hs.
  apply append_cancel_l in E; simpl in E; inversion E as [E'].
  change metafilename with "_zwila.md".
  rewrite <- E'; symmetry; apply canon_no_slash.
  now rewrite E'.
Qed.

(** The slug [createFolder] works with is never empty, and has no slash
    and no backslash when the caller's has none. *)
Lemma effective_slug (slug : option string) (rnd : nat -> Z) :
  (forall s, slug = Some s ->
             contains_char "/" s = false /\ contains_char "\" s = false) ->
  orDefault slug (Nanoid.nanoid rnd) <> "" /\
  contains_char "/" (orDefault slug (Nanoid.nanoid rnd)) = false /\
  contains_char "\" (orDefault slug (Nanoid.nanoid rnd)) = false.
Proof.
  intros Hs.
  assert (Hn : Nanoid.nanoid rnd <> "").
  { intros E; apply (f_equal String.length) in E.
    unfold Nanoid.nanoid in E; rewrite length_nanoid_loop in E; discriminate. }
  assert (Hc : contains_char "/" (Nanoid.nanoid rnd) = false)
    by apply urlSafe_no_slash, urlSafe_nanoid_loop.
  assert (Hb : contains_char "\" (Nanoid.nanoid rnd) = false)
    by apply urlSafe_no_backslash, urlSafe_nanoid_loop.
  destruct slug as [s|]; simpl; [|now repeat split].
  destruct (s =? "")%string eqn:E; [now repeat split|].
  apply String.eqb_neq in E; split; [exact E | now apply Hs].
Qed.

(** X8: a folder created under a slug without slash and backslash (the
    generated slugs are such) is found by [listFolders] under that slug:
    the listing is the one entry with the text [createFolder] returned. *)
Theorem createFolder_then_listFolders
    now rnd slug description expiry message c c' res :
  (forall s, slug = Some s ->
             contains_char "/" s = false /\ contains_char "\" s = false) ->
  createFolder now rnd slug description expiry message c = (c', Ok res) ->
  listFolders c' (Some (orDefault slug (Nanoid.nanoid rnd))) =
    Ok [mkFolder (meta res)
          (listFolderBlobs c' (orDefault slug (Nanoid.nanoid rnd)))].
Proof.
  intros Hs H; destruct (effective_slug slug rnd Hs) as (Hne & Hc & Hb).
  apply createFolder_inv in H as (iso & _ & -> & _).
  rewrite listFolders_filter_in; trivial.
  - now rewrite download_upload_same.
  - eapply In_folderNames; [apply In_upload | | exact Hc].
    cbn [Store.blobName]; now apply canon_path.
Qed.

(** X9: [uploadFile] does not create the folder.  After an upload, under
    a name other than the reserved one, into a slug that has no metadata
    object, [getFolderMeta] of that slug fails with the store's
    BlobNotFound, and when the upload went through so does [listFolders]
    without a filter. *)
Theorem uploadFile_without_createFolder
    file isBinary sourcepath slug filename c c' r :
  contains_char "/" slug = false ->
  contains_char "\" slug = false ->
  filename <> metafilename ->
  download c (slug ++ "/" ++ metafilename) = None ->
  uploadFile file isBinary sourcepath slug filename c = (c', r) ->
  getFolderMeta c' slug = Throw (RestError "BlobNotFound") /\
  (forall u, r = Ok u ->
             listFolders c' None = Throw (RestError "BlobNotFound")).
Proof.
  intros Hc Hb Hf Hd H.
  assert (Hup : forall body ct,
            download (upload c (slug ++ "/" ++ filename) body ct)
              (slug ++ "/" ++ metafilename) = None).
  { intros body ct; rewrite download_upload_other; [exact Hd|].
    intros E; now apply canon_metafile in E. }
  assert (Hlist : forall body ct,
            listFolders (upload c (slug ++ "/" ++ filename) body ct) None
            = Throw (RestError "BlobNotFound")).
  { intros body ct; unfold listFolders.
    apply (listFolders_loop_missing _ None slug eq_refl (Hup body ct)).
    eapply In_folderNames; [apply In_upload | | exact Hc].
    cbn [Store.blobName]; now apply canon_path. }
  unfold Zwila.uploadFile in H.
  destruct file as [e0 | body filetype].
  - unfold lift in H; inversion H; subst.
    split; [unfold getFolderMeta; now rewrite Hd | discriminate].
  - destruct (Util._getContentTypeFromFile Util.textMimeTypes filetype
                isBinary sourcepath) as [mime | | key];
      unfold bind, uploadM, ret, lift in H; inversion H; subst; clear H.
    + split; [unfold getFolderMeta; now rewrite Hup | intros u _; apply Hlist].
    + split; [unfold getFolderMeta; now rewrite Hup | intros u _; apply Hlist].
    + split; [unfold getFolderMeta; now rewrite Hd | discriminate].
Qed.


End FolderLifecycle.

Lemma createFolder_then_listFolders_witness :
  Zwila.listFolders (run (sampleCreate None None None None) [])
    (Some "OnYy5bTSsVqPG-DcAj3Ld") =
  Ok [Zwila.mkFolder
        (Zwila.metaText "OnYy5bTSsVqPG-DcAj3Ld" ""
           "2021-08-05T00:00:00.123Z" None) []].
Proof.
  refine (createFolder_then_listFolders "acct" "cont" noDateParse
            sampleNow sampleRnd None None None None []
            (run (sampleCreate None None None None) [])
            (Zwila.mkCreated
               (Zwila.metaText "OnYy5bTSsVqPG-DcAj3Ld" ""
                  "2021-08-05T00:00:00.123Z" None)
               "https://acct.blob.core.windows.net/cont/OnYy5bTSsVqPG-DcAj3Ld/_zwila.md")
            _ _).
  - discriminate.
  - reflexivity.
Defined.

Lemma uploadFile_without_createFolder_witness :
  Zwila.getFolderMeta orphanContainer "c" = Throw (RestError "BlobNotFound") /\
  Zwila.listFolders orphanContainer None = Throw (RestError "BlobNotFound").
Proof.
  destruct (uploadFile_without_createFolder "acct" "cont"
              (Zwila.Readable "hello" None) false "/tmp/h.txt" "c" "h.txt"
              sampleFolder orphanContainer
              (Ok "https://acct.blob.core.windows.net/cont/c/h.txt"))
    as [Hmeta Hlist].
  - reflexivity.
  - reflexivity.
  - discriminate.
  - reflexivity.
  - reflexivity.
  - split; [exact Hmeta | exact (Hlist _ eq_refl)].
Defined.


(** ** Containers the API can produce *)

Section Invariants.
Import Store Zwila JsString.
Local Open Scope Z_scope.

Variables account container : string.
Variable Date_parse : string -> option Z.

Local Abbreviation createFolder := (Zwila.createFolder account container Date_parse).
Local Abbreviation uploadFile := (Zwila.uploadFile account container).

(** The containers reached from the empty one by calls of [createFolder]
    and [uploadFile], whatever their arguments and outcome. *)
Inductive Reachable : Container -> Prop :=
| Reach_empty : Reachable []
| Reach_createFolder c now rnd slug description expiry message :
    Reachable c ->
    Reachable (fst (createFolder now rnd slug description expiry message c))
| Reach_uploadFile c file isBinary sourcepath slug filename :
    Reachable c ->
    Reachable (fst (uploadFile file isBinary sourcepath slug filename c)).

(** The same, with no upload aimed at a metadata object: the name it
    writes is stored under no folder's metadata name. *)
Inductive Managed : Container -> Prop :=
| Managed_empty : Managed []
| Managed_createFolder c now rnd slug description expiry message :
    Managed c ->
    Managed (fst (createFolder now rnd slug description expiry message c))
| Managed_uploadFile c file isBinary sourcepath slug filename :
    Managed c ->
    (forall s, canon (slug ++ "/" ++ filename)
               <> canon (s ++ "/" ++ metafilename)) ->
    Managed (fst (uploadFile file isBinary sourcepath slug filename c)).

(** Every metadata object holds a text [createFolder] wrote, for a slug
    the store keeps under the same name as the folder it lies in. *)
Definition meta_wf (c : Container) : Prop :=
  forall s md, download c (s ++ "/" ++ metafilename) = Some md ->
               exists s' d e m, md = metaText s' d e m /\ canon s' = canon s.

Lemma meta_wf_nil : meta_wf [].
Proof. intros s md H; discriminate. Qed.

Lemma meta_wf_upload (c : Container) (s d e : string) (m : option string)
    (ct : JsVal) :
  meta_wf c ->
  meta_wf (upload c (s ++ "/" ++ metafilename) (metaText s d e m) ct).
Proof.
  intros Hc s' md H.
  destruct (string_dec (canon (s ++ "/" ++ metafilename))
                       (canon (s' ++ "/" ++ metafilename))) as [E | N].
  - unfold download in H; rewrite <- E in H.
    unfold upload in H; rewrite find_put_same in H; inversion H; subst.
    exists s, d, e, m; split; [reflexivity|].
    rewrite !canon_append in E; now apply append_cancel_r in E.
  - rewrite download_upload_other in H by exact N; now apply Hc.
Qed.

(** [createFolder] keeps the metadata objects well formed. *)
Lemma createFolder_meta_wf now rnd slug description expiry message
    (c : Container) :
  meta_wf c ->
  meta_wf (fst (createFolder now rnd slug description expiry message c)).
Proof.
  intros Hc.
  destruct (normalizeExpiry Date_parse now expiry) as [iso|e] eqn:E.
  - rewrite (createFolder_Ok _ _ _ _ _ _ _ _ _ _ _ E); simpl.
    now apply meta_wf_upload.
  - now rewrite (createFolder_Throw _ _ _ _ _ _ _ _ _ _ _ E).
Qed.

(** What [uploadFile] leaves behind: the container as it was, or one
    write to [slug/filename]. *)
Lemma uploadFile_cases file isBinary sourcepath slug filename
    (c : Container) :
  fst (uploadFile file isBinary sourcepath slug filename c) = c \/
  exists body ct,
    fst (uploadFile file isBinary sourcepath slug filename c)
    = upload c (slug ++ "/" ++ filename) body ct.
Proof.
  unfold Zwila.uploadFile; destruct file as [e | body filetype];
    [now left|].
  destruct (Util._getContentTypeFromFile Util.textMimeTypes filetype
              isBinary sourcepath) as [mime | | key];
    [right | right | now left]; eexists; eexists; reflexivity.
Qed.

(** So does an upload, unless it is aimed at a metadata object. *)
Lemma uploadFile_meta_wf file isBinary sourcepath slug filename
    (c : Container) :
  meta_wf c ->
  (forall s, canon (slug ++ "/" ++ filename)
             <> canon (s ++ "/" ++ metafilename)) ->
  meta_wf (fst (uploadFile file isBinary sourcepath slug filename c)).
Proof.
  intros Hc Hn.
  destruct (uploadFile_cases file isBinary sourcepath slug filename c)
    as [-> | (body & ct & ->)]; [exact Hc|].
  intros s md H; rewrite download_upload_other in H by apply Hn.
  now apply Hc.
Qed.

(** Is the blob named [n] listed as a blob under the prefix [pre]? *)
Definition directUnder (pre n : string) : bool :=
  match strip_prefix pre n with
  | Some rest =>
      match take_until "/" rest with
      | Some _ => false
      | None => true
      end
  | None => false
  end.

Lemma namesOf_blob_entries (pre : string) (c : Container) :
  namesOf Kblob (entries pre c) = filter (directUnder pre) (blobNames c).
Proof.
  induction c as [|b c IH]; simpl; [reflexivity|].
  unfold entry, directUnder.
  destruct (strip_prefix pre (Store.blobName b)) as [rest|]; [|exact IH].
  destruct (take_until "/" rest) as [[d r]|]; simpl.
  - exact IH.
  - unfold namesOf in *; simpl; now rewrite IH.
Qed.

Lemma NoDup_listBlobsByHierarchy (c : Container) (pre : string) :
  NoDup (blobNames c) -> NoDup (listBlobsByHierarchy c pre).
Proof.
  intros H; unfold listBlobsByHierarchy; apply NoDup_app.
  - apply NoDup_map_NoDup_ForallPairs; [|apply NoDup_nodup].
    intros x y _ _ E; now inversion E.
  - apply NoDup_map_NoDup_ForallPairs.
    + intros x y _ _ E; now inversion E.
    + rewrite namesOf_blob_entries; now apply NoDup_filter.
  - intros it Hp Hb.
    apply in_map_iff in Hp as (x & <- & _).
    apply in_map_iff in Hb as (y & E & _); discriminate.
Qed.

Lemma Reachable_NoDup (c : Container) : Reachable c -> NoDup (blobNames c).
Proof.
  induction 1 as [| c now rnd slug description expiry message _ IH
                  | c file isBinary sourcepath slug filename _ IH].
  - constructor.
  - destruct (normalizeExpiry Date_parse now expiry) as [iso|e] eqn:E.
    + rewrite (createFolder_Ok _ _ _ _ _ _ _ _ _ _ _ E); simpl.
      now apply NoDup_blobNames_upload.
    + now rewrite (createFolder_Throw _ _ _ _ _ _ _ _ _ _ _ E).
  - destruct (uploadFile_cases file isBinary sourcepath slug filename c)
      as [-> | (body & ct & ->)]; [exact IH|].
    now apply NoDup_blobNames_upload.
Qed.

(** X11: in a container built by [createFolder] and [uploadFile] alone no
    name is held twice, however often it was written, so no listing shows
    a blob or a folder twice. *)
Theorem reachable_no_duplicates (c : Container) :
  Reachable c ->
  NoDup (blobNames c) /\
  (forall pre, NoDup (listBlobsByHierarchy c pre)) /\
  (forall slug, NoDup (listFolderBlobs c slug)).
Proof.
  intros H; apply Reachable_NoDup in H.
  split; [exact H|]; split.
  - intros pre; now apply NoDup_listBlobsByHierarchy.
  - intros slug; unfold listFolderBlobs.
    now apply NoDup_filter, NoDup_listBlobsByHierarchy.
Qed.

(** X12: as long as no upload is aimed at a metadata object, whatever
    [getFolderMeta] reads for a slug without slash and backslash (as every
    folder name of a listing is) is a frontmatter text that [createFolder]
    wrote for that very slug. *)
Theorem managed_metadata (c : Container) (slug md : string) :
  Managed c ->
  contains_char "/" slug = false ->
  contains_char "\" slug = false ->
  getFolderMeta c slug = Ok md ->
  exists description expiry message,
    md = metaText slug description expiry message.
Proof.
  intros H.
  assert (Hwf : meta_wf c).
  { induction H as [| c now rnd s description expiry message _ IH
                    | c file isBinary sourcepath s filename _ IH Hn].
    - apply meta_wf_nil.
    - now apply createFolder_meta_wf.
    - now apply uploadFile_meta_wf. }
  intros Hc Hb G; unfold getFolderMeta in G.
  destruct (download c (slug ++ "/" ++ metafilename)) as [x|] eqn:D;
    simpl in G; [|discriminate].
  inversion G; subst.
  destruct (Hwf _ _ D) as (s' & d & e & m & -> & Hs').
  rewrite (canon_id slug Hb) in Hs'.
  assert (E : s' = slug).
  { rewrite <- Hs'; symmetry; apply canon_no_slash; now rewrite Hs'. }
  subst s'; now exists d, e, m.
Qed.

End Invariants.

Lemma Reachable_sampleFolder : Reachable "acct" "cont" noDateParse sampleFolder.
Proof.
  unfold sampleFolder, run, sampleUpload, sampleCreate.
  repeat apply Reach_uploadFile; apply Reach_createFolder, Reach_empty.
Qed.

Lemma reachable_no_duplicates_witness :
  NoDup (blobNames sampleFolder) /\
  NoDup (Zwila.listFolderBlobs sampleFolder "a").
Proof.
  destruct (reachable_no_duplicates "acct" "cont" noDateParse sampleFolder
              Reachable_sampleFolder) as (H1 & _ & H3).
  split; [exact H1 | exact (H3 "a")].
Defined.

Lemma Managed_expiredContainer :
  Managed "acct" "cont" noDateParse expiredContainer.
Proof.
  unfold expiredContainer, run, sampleCreate.
  apply Managed_createFolder, Managed_empty.
Qed.

Lemma managed_metadata_witness :
  exists description expiry message,
    Zwila.metaText "zwila-test-expired"
      "Test folder used by AVA test runner during development."
      "2021-07-04T23:55:00.123Z" (Some "## Your downloads are available")
    = Zwila.metaText "zwila-test-expired" description expiry message.
Proof.
  exact (managed_metadata "acct" "cont" noDateParse expiredContainer
           "zwila-test-expired" _ Managed_expiredContainer eq_refl eq_refl
           eq_refl).
Defined.

(** ** The validity window of a SAS url *)

Section SASWindow.
Import Zwila.
Local Open Scope Z_scope.

Variables account container : string.
Variable sign : BlobSASSignatureValues -> result string.

(** X13: [minutes] is not checked.  The window asked of the signer is
    [minutes] plus ten minutes long, plus the time between the two
    readings of the clock.  For readings in order and a non-negative
    [minutes] it contains both readings, so the url is valid when it is
    issued; it is empty exactly when that length is not positive; and
    whatever the window, the token the signer returns for it is appended
    to the address. *)
Theorem getSASUrl_window now1 now2 slug filename (m : Z) :
  Z.abs (now1 - 10 * 60 * 1000) <= JsDate.maxTime ->
  Z.abs (now2 + m * 60 * 1000) <= JsDate.maxTime ->
  exists s e,
    startsOn (sasValues container now1 now2 slug filename (Some m)) = Some s /\
    expiresOn (sasValues container now1 now2 slug filename (Some m)) = Some e /\
    e - s = (m + 10) * 60 * 1000 + (now2 - now1) /\
    (now1 <= now2 -> 0 <= m -> s < now1 /\ now2 <= e) /\
    (e <= s <-> (m + 10) * 60 * 1000 + (now2 - now1) <= 0) /\
    (forall token,
       sign (sasValues container now1 now2 slug filename (Some m)) = Ok token ->
       getSASUrl account container sign now1 now2 slug filename (Some m)
       = Ok (blobUrl account container (slug ++ "/" ++ filename)
             ++ "?" ++ token)%string).
Proof.
  intros Hs He.
  exists (now1 - 10 * 60 * 1000), (now2 + m * 60 * 1000).
  split; [|split; [|split; [|split; [|split]]]].
  - unfold sasValues; cbn [startsOn]; unfold JsDate.TimeClip.
    apply Z.leb_le in Hs; now rewrite Hs.
  - unfold sasValues; cbn [expiresOn]; unfold JsDate.TimeClip.
    apply Z.leb_le in He; now rewrite He.
  - lia.
  - lia.
  - lia.
  - intros token H; unfold getSASUrl; now rewrite H.
Qed.

End SASWindow.

Lemma getSASUrl_window_witness :
  exists s e,
    Zwila.startsOn
      (Zwila.sasValues "cont" sampleNow sampleNow "a" "rhino.png" (Some (-15)%Z))
      = Some s /\
    Zwila.expiresOn
      (Zwila.sasValues "cont" sampleNow sampleNow "a" "rhino.png" (Some (-15)%Z))
      = Some e /\
    (e <= s)%Z /\
    Zwila.getSASUrl "acct" "cont" sampleSigner sampleNow sampleNow
      "a" "rhino.png" (Some (-15)%Z)
    = Ok ("https://acct.blob.core.windows.net/cont/a/rhino.png" ++ "?" ++
          "st=2021-07-04T23:50:00.123Z&se=2021-07-04T23:45:00.123Z" ++
          "&sp=r&sig=a/rhino.png").
Proof.
  destruct (getSASUrl_window "acct" "cont" sampleSigner sampleNow sampleNow
              "a" "rhino.png" (-15)%Z)
    as (s & e & Hs & He & _ & _ & Hempty & Hsign).
  - vm_compute; discriminate.
  - vm_compute; discriminate.
  - exists s, e; split; [exact Hs|]; split; [exact He|]; split.
    + apply Hempty; vm_compute; discriminate.
    + apply Hsign; reflexivity.
Defined.

(* ================================================================== *)
(** ** util.js: the last segment of a path *)

Section LastSegment.
Import Util JsString.

(** A string that holds the separator splits at its last occurrence. *)
Lemma last_occurrence (sep : ascii) (s : string) :
  contains_char sep s = true ->
  exists d r, s = d ++ String sep r /\ contains_char sep r = false.
Proof.
  induction s as [|a s IH]; simpl; [discriminate|].
  destruct (contains_char sep s) eqn:C.
  - intros _; destruct (IH eq_refl) as (d & r & -> & Hr).
    now exists (String a d), r.
  - rewrite orb_false_r; intros E; apply Ascii.eqb_eq in E; subst.
    now exists "", s.
Qed.

Lemma last_split_spec (sep : ascii) (s : string) :
  contains_char sep (last (split sep s) "") = false /\
  (s = last (split sep s) "" \/
   exists d, s = d ++ String sep (last (split sep s) "")).
Proof.
  destruct (contains_char sep s) eqn:C.
  - destruct (last_occurrence sep s C) as (d & r & -> & Hr).
    rewrite last_split_append, (split_no_sep _ _ Hr); simpl.
    split; [exact Hr | right; now exists d].
  - rewrite (split_no_sep _ _ C); simpl; split; [exact C | now left].
Qed.

(** X14: [getFilename] returns the part of the path after its last ["/"]
    (the whole path when it has none, the empty string when it ends in
    one): the result holds no ["/"] and the path ends with it. *)
Theorem getFilename_last_segment (filepath : string) :
  contains_char "/" (_getFilename filepath) = false /\
  (filepath = _getFilename filepath \/
   exists dir, filepath = dir ++ "/" ++ _getFilename filepath).
Proof. exact (last_split_spec "/" filepath). Qed.

(** X15: [getFileExtension] returns the part of its argument after the
    last dot, and the whole argument when it has no dot: a name without
    dot is its own extension. *)
Theorem getFileExtension_last_segment (filename : string) :
  contains_char "." (_getFileExtension filename) = false /\
  (contains_char "." filename = false ->
   _getFileExtension filename = filename) /\
  (forall base ext, filename = base ++ "." ++ ext ->
                    contains_char "." ext = false ->
                    _getFileExtension filename = ext).
Proof.
  split; [exact (proj1 (last_split_spec "." filename))|]; split.
  - intros H; unfold _getFileExtension; now rewrite (split_no_sep _ _ H).
  - intros base ext -> H; unfold _getFileExtension; simpl.
    now rewrite last_split_append, (split_no_sep _ _ H).
Qed.

(** X16: [getContentTypeFromFile] looks the extension up in the whole
    path, and its result is a string except in one case: nothing sniffed,
    no binary extension, and an extension that is no key of the table.
    So a file without dot whose path is a key of the table gets that
    type. *)
Theorem getContentTypeFromFile_string (table : JsObject)
    (filetype : option string) (isBinary : bool) (filepath : string) :
  ((exists s, _getContentTypeFromFile table filetype isBinary filepath
              = JString s) <->
   ~ (filetype = None /\ isBinary = false /\
      ownProperty table (_getFileExtension filepath) = None)) /\
  (forall mime, filetype = None -> isBinary = false ->
     contains_char "." filepath = false ->
     ownProperty table filepath = Some mime ->
     _getContentTypeFromFile table filetype isBinary filepath = JString mime).
Proof.
  split.
  - unfold _getContentTypeFromFile, getProperty.
    destruct filetype as [mime|], isBinary;
      try (split; [intros _ (H & _); discriminate
                  | intros _; eexists; reflexivity]).
    + split; [intros _ (_ & H & _); discriminate
             | intros _; eexists; reflexivity].
    + destruct (ownProperty table (_getFileExtension filepath)) as [v|].
      * split; [intros _ (_ & _ & H); discriminate
               | intros _; eexists; reflexivity].
      * split.
        -- intros (s & H).
           destruct (existsb (String.eqb (_getFileExtension filepath))
                             objectPrototypeKeys); discriminate.
        -- intros H; exfalso; apply H; auto.
  - intros mime -> -> Hdot Hown; unfold _getContentTypeFromFile, getProperty.
    unfold _getFileExtension; rewrite (split_no_sep _ _ Hdot); simpl.
    now rewrite Hown.
Qed.

End LastSegment.

Lemma getFileExtension_last_segment_witness :
  Util._getFileExtension "Makefile" = "Makefile" /\
  Util._getFileExtension "/srv/data.v2/report.csv" = "csv".
Proof.
  destruct (getFileExtension_last_segment "Makefile") as (_ & H1 & _).
  destruct (getFileExtension_last_segment "/srv/data.v2/report.csv")
    as (_ & _ & H2).
  split.
  - apply H1; reflexivity.
  - apply (H2 "/srv/data.v2/report" "csv"); reflexivity.
Defined.

Lemma getContentTypeFromFile_string_witness :
  Util._getContentTypeFromFile Util.textMimeTypes None false "csv"
    = JString "text/csv" /\
  exists s, Util._getContentTypeFromFile Util.textMimeTypes None true
              "/tmp/x.bin" = JString s.
Proof.
  destruct (getContentTypeFromFile_string Util.textMimeTypes None false "csv")
    as [_ H1].
  destruct (getContentTypeFromFile_string Util.textMimeTypes None true
              "/tmp/x.bin") as [[_ H2] _].
  split.
  - apply H1; reflexivity.
  - apply H2; intros (_ & H & _); discriminate.
Defined.

(* ================================================================== *)
(** ** zwila.js: streamToString *)

Module Stream.

(** What a readable stream emits.  The chunk of a [data] event is taken
    as the text [data.toString()] gives. *)
Inductive Event : Type :=
| data (chunk : string)
| end_
| error (e : JsError).

(** The array [chunks] of the closure and the promise: [None] while it is
    pending. *)
Record State : Type := mkState {
  chunks : list string;
  promise : option (result string)
}.

(** [resolve] and [reject] act on a pending promise only. *)
Definition settle (p : option (result string)) (r : result string)
  : option (result string) :=
  match p with
  | None => Some r
  | Some _ => p
  end.

(** The three handlers [streamToString] registers. *)
Definition on (st : State) (ev : Event) : State :=
  match ev with
  | data d => mkState (chunks st ++ [d]) (promise st)
  | end_ =>
      mkState (chunks st)
              (settle (promise st) (Ok (String.concat "" (chunks st))))
  | error e => mkState (chunks st) (settle (promise st) (Throw e))
  end.

(** [streamToString(readableStream)] after the stream emitted [events]. *)
Definition streamToString (events : list Event) : option (result string) :=
  promise (fold_left on events (mkState [] None)).

End Stream.

Section StreamFacts.
Import Stream.

Lemma fold_data (cs acc : list string) :
  fold_left on (map data cs) (mkState acc None) = mkState (acc ++ cs) None.
Proof.
  revert acc; induction cs as [|c cs IH]; intros acc; simpl.
  - now rewrite app_nil_r.
  - now rewrite IH, <- app_assoc.
Qed.

Lemma fold_settled (events : list Event) (cs : list string)
    (r : result string) :
  promise (fold_left on events (mkState cs (Some r))) = Some r.
Proof.
  revert cs; induction events as [|ev events IH]; intros cs; simpl;
    [reflexivity|].
  destruct ev; simpl; apply IH.
Qed.

(** X17: the promise of [streamToString] stays pending while only data
    arrives, is resolved by the first [end] with the chunks joined in the
    order of arrival, is rejected by a first [error] with that error, and
    nothing the stream emits afterwards changes it. *)
Theorem streamToString_settles_once (cs : list string) (rest : list Event) :
  streamToString (map data cs) = None /\
  streamToString (map data cs ++ end_ :: rest)
    = Some (Ok (String.concat "" cs)) /\
  (forall e, streamToString (map data cs ++ error e :: rest)
             = Some (Throw e)).
Proof.
  unfold streamToString; repeat split.
  - now rewrite fold_data.
  - rewrite fold_left_app, fold_data; simpl; apply fold_settled.
  - intros e; rewrite fold_left_app, fold_data; simpl; apply fold_settled.
Qed.

End StreamFacts.

(* ================================================================== *)
(** ** zwila.mjs: the listing *)

Section LegacyListing.
Import Store JsString.

Variable J : Type.
Variable JSON_parse : string -> option J.

(** Entry [e] is what the loop pushes for folder [f]. *)
Definition legacyEntry (c : Container) (f : string) (e : Legacy.Folder J)
  : Prop :=
  (exists json,
     download c (f ++ "/" ++ Legacy.metafilename) = Some json /\
     JSON_parse json = Some (Legacy.foldermeta e)) /\
  Legacy.folderblobs e = Legacy.listFolderBlobs c f.

Lemma legacy_getFolderMeta_Ok (c : Container) (f : string) (v : J) :
  Legacy.getFolderMeta J JSON_parse c f = Ok v <->
  exists json,
    download c (f ++ "/" ++ Legacy.metafilename) = Some json /\
    JSON_parse json = Some v.
Proof.
  unfold Legacy.getFolderMeta.
  destruct (download c (f ++ "/" ++ Legacy.metafilename)) as [json|]; simpl.
  - destruct (JSON_parse json) as [w|] eqn:P; simpl; split.
    + intros H; inversion H; subst; now exists json.
    + intros (j & Hj & Hv); inversion Hj; subst; congruence.
    + discriminate.
    + intros (j & Hj & Hv); inversion Hj; subst; congruence.
  - split; [discriminate | intros (j & Hj & _); discriminate].
Qed.

Lemma legacy_loop_Ok (c : Container) (foldername : option string) :
  truthy foldername = false ->
  forall items acc res,
    Legacy.listFolders_loop J JSON_parse c foldername items acc = Ok res <->
    exists new,
      res = (acc ++ new)%list /\
      Forall2 (legacyEntry c) (map slice_0_m1 (namesOf Kprefix items)) new.
Proof.
  intros Hs; induction items as [|[k n] items IH]; intros acc res; simpl.
  - split.
    + intros H; inversion H; subst; exists []; split;
        [now rewrite app_nil_r | constructor].
    + intros (new & -> & H); inversion H; now rewrite app_nil_r.
  - destruct k; simpl; [|apply IH].
    rewrite (otherFolder_falsy _ _ Hs).
    destruct (Legacy.getFolderMeta J JSON_parse c (slice_0_m1 n))
      as [v|e] eqn:G; simpl.
    + rewrite IH; split.
      * intros (new & -> & H).
        exists (Legacy.mkFolder v
                  (Legacy.listFolderBlobs c (slice_0_m1 n)) :: new).
        split; [now rewrite <- app_assoc|].
        constructor; [|exact H].
        split; [now apply legacy_getFolderMeta_Ok | reflexivity].
      * intros (new & -> & H).
        inversion H as [|f e fs es [Hm Hb] Hrest]; subst.
        exists es; split; [|exact Hrest].
        apply legacy_getFolderMeta_Ok in Hm; rewrite G in Hm.
        inversion Hm; subst; destruct e as [m b]; simpl in *; subst.
        now rewrite <- app_assoc.
    + split; [discriminate|].
      intros (new & _ & H).
      inversion H as [|f e' fs es [Hm Hb] Hrest]; subst.
      apply legacy_getFolderMeta_Ok in Hm; congruence.
Qed.

(** X18: in zwila.mjs [listFolders] without a folder name succeeds
    exactly when the metadata object of every folder exists and parses, and
    then returns, folder by folder in the order of the store, the parsed
    metadata with the folder's blobs. *)
Theorem legacy_listFolders_all (c : Container)
    (foldername : option string) (folders : list (Legacy.Folder J)) :
  truthy foldername = false ->
  (Legacy.listFolders J JSON_parse c foldername = Ok folders <->
   Forall2 (legacyEntry c) (folderNames c) folders).
Proof.
  intros Hs; unfold Legacy.listFolders.
  rewrite (legacy_loop_Ok c foldername Hs); split.
  - now intros (new & -> & H).
  - intros H; now exists folders.
Qed.

End LegacyListing.

(** The metadata text of folder [good] in [legacyCorrupt], alone in a
    container. *)
Definition legacyGoodJson : string :=
  "{" ++ dq ++ "foldername" ++ dq ++ ":" ++ dq ++ "good" ++ dq ++ "," ++
  dq ++ "expiry" ++ dq ++ ":" ++ dq ++ "2021-08-05T00:00:00.123Z" ++ dq ++
  "," ++ dq ++ "note" ++ dq ++ ":" ++ dq ++ dq ++ "," ++
  dq ++ "downloads" ++ dq ++ ":0}".

Definition legacyGood : Store.Container :=
  Store.upload [] "good/foldermeta.json" legacyGoodJson
    (JString "application/json").

Lemma legacy_listFolders_all_witness :
  Legacy.listFolders string (rejecting "garbage") legacyGood None =
    Ok [Legacy.mkFolder legacyGoodJson []].
Proof.
  apply (proj2 (legacy_listFolders_all string (rejecting "garbage")
                  legacyGood None _ eq_refl)).
  change (folderNames legacyGood) with ["good"].
  repeat constructor; eexists; split; reflexivity.
Defined.

(* ================================================================== *)
(** ** Uploads and the blobs of a folder *)

Section UploadsListed.
Import Store Zwila JsString.




Lemma prefix_append_more (p a b : string) :
  String.prefix p a = true -> String.prefix p (a ++ b) = true.
Proof.
  revert a; induction p as [|x p IH]; intros a H.
  - now destruct (a ++ b).
  - destruct a as [|y a]; simpl in *; [discriminate|].
    destruct (ascii_dec x y); [now apply IH | discriminate].
Qed.

Lemma includes_append_more (a b sub : string) :
  includes a sub = true -> includes (a ++ b) sub = true.
Proof.
  induction a as [|x a IH]; simpl; intros H.
  - rewrite orb_false_r in H.
    destruct sub; [|discriminate].
    destruct b; reflexivity.
  - apply orb_true_iff in H as [H | H].
    + apply (prefix_append_more sub (String x a) b) in H.
      simpl in H; now rewrite H.
    + rewrite (IH H); apply orb_true_r.
Qed.


(** X20: the reserved name is looked for in the whole path.  Under a slug
    that contains it [listFolderBlobs] returns nothing, whatever the folder
    holds. *)
Theorem listFolderBlobs_reserved_in_slug (c : Container) (slug : string) :
  includes slug metafilename = true ->
  listFolderBlobs c slug = [].
Proof.
  intros Hs.
  destruct (listFolderBlobs c slug) as [|it l] eqn:E; [reflexivity|].
  assert (Hin : In it (listFolderBlobs c slug)) by (rewrite E; now left).
  unfold listFolderBlobs in Hin; apply filter_In in Hin as [Hin Hf].
  apply andb_true_iff in Hf as [Hk Hinc].
  destruct it as [k n]; destruct k; [discriminate|]; simpl in *.
  apply In_listBlobsByHierarchy, In_entries in Hin as (b & _ & He).
  apply blob_entry_iff in He as (_ & rest & Hp & _).
  apply strip_prefix_Some in Hp; subst n.
  rewrite append_assoc_s, (includes_append_more _ _ _ Hs) in Hinc.
  discriminate.
Qed.

End UploadsListed.


Lemma listFolderBlobs_reserved_in_slug_witness :
  Zwila.listFolderBlobs
    (run (sampleUpload (Some "image/png") true "PNG" "/tmp/rhino.png"
            "docs_zwila.md" "rhino.png") sampleFolder)
    "docs_zwila.md"
  = [].
Proof.
  apply listFolderBlobs_reserved_in_slug; reflexivity.
Defined.
